(** * Document extraction service: a shallow embedding of the OCR pipeline

    The development follows [app/services/ocr.py] and [app/main.py] of the
    document extraction service, and the computed settings of [config.py].

    - Python [str] values are sequences of Unicode code points, here
      [list N]; [len] is [length].
    - [bytes] values are [list Byte.byte].
    - The recognition engine (pytesseract), the image library (PIL) and the
      PDF rasteriser (pdf2image) are not part of the repository: they are
      the fields of the record [Externals].  Each call receives the current
      state of the outside world and returns either the [str()] of the
      exception it raised or its result, with the next state of the world.
    - Calls of [logger] are not modelled. *)

From Stdlib Require Import String Ascii DecimalString QArith_base Sorted.
From stdpp Require Import base numbers list gmap.

Set Default Proof Using "Type".
Open Scope N_scope.
Open Scope nat_scope.
Open Scope list_scope.

(** ** Python strings *)

Module PyStr.

Definition char := N.
Definition str := list char.

(** A literal of the source, character by character. *)
Definition lit (s : string) : str :=
  (λ a, N_of_ascii a) <$> list_ascii_of_string s.

Definition LF : char := 10%N.
Definition SP : char := 32%N.

(** [str.isspace] for one code point (CPython's [_PyUnicode_IsWhitespace]). *)
Definition isspace (c : char) : bool :=
  ((9 <=? c) && (c <=? 13) || (28 <=? c) && (c <=? 32)
   || (c =? 133) || (c =? 160) || (c =? 5760)
   || (8192 <=? c) && (c <=? 8202)
   || (c =? 8232) || (c =? 8233) || (c =? 8239) || (c =? 8287)
   || (c =? 12288))%N.

Fixpoint lstrip (s : str) : str :=
  match s with
  | [] => []
  | c :: s' => if isspace c then lstrip s' else s
  end.

Definition rstrip (s : str) : str := reverse (lstrip (reverse s)).

(** [s.strip()] *)
Definition strip (s : str) : str := rstrip (lstrip s).

(** [s.split()] without argument: the maximal runs of non-whitespace
    characters; [w] is the run being read. *)
Fixpoint split_from (w : str) (s : str) : list str :=
  match s with
  | [] => match w with [] => [] | _ => [w] end
  | c :: s' =>
      if isspace c
      then match w with [] => split_from [] s' | _ => w :: split_from [] s' end
      else split_from (w ++ [c]) s'
  end.

Definition split (s : str) : list str := split_from [] s.

(** [sep.join(l)] *)
Fixpoint join (sep : str) (l : list str) : str :=
  match l with
  | [] => []
  | [x] => x
  | x :: rest => x ++ sep ++ join sep rest
  end.

(** [str(n)] for a natural number. *)
Definition str_of_nat (n : nat) : str :=
  lit (NilEmpty.string_of_uint (Nat.to_uint n)).

(** [s.lower()] on the letters A to Z.  Python's [lower] also changes
    letters outside ASCII; every such letter but U+212A is sent to a string
    with a character outside ASCII, and U+212A is sent to k, so that
    membership of the result in a set of words over the letters
    b d e f g i j m n p t w and the dot is the same for both. *)
Definition lower_char (c : char) : char :=
  if ((65 <=? c) && (c <=? 90))%N then (c + 32)%N else c.

Definition lower (s : str) : str := lower_char <$> s.

(** The two lines of the source that clean a recognised text:
    [text = text.strip()] and [text = ' '.join(text.split())]. *)
Definition normalize (text : str) : str :=
  let text := strip text in
  join [SP] (split text).

(** "Trimmed": no whitespace at either end. *)
Definition trimmed (s : str) : bool :=
  match s with [] => true | c :: _ => negb (isspace c) end
  && match last s with None => true | Some c => negb (isspace c) end.

(** "Single-spaced": every whitespace character is one space, and it is
    not followed by another whitespace character. *)
Fixpoint single_spaced (s : str) : bool :=
  match s with
  | [] => true
  | c :: s' =>
      (if isspace c
       then (c =? SP)%N && match s' with [] => true | d :: _ => negb (isspace d) end
       else true)
      && single_spaced s'
  end.

Definition is_normalized (s : str) : bool := trimmed s && single_spaced s.

Definition nows (c : char) : Prop := isspace c = false.

End PyStr.

Import PyStr.


Definition bytes := list Byte.byte.

(** ** Exceptions *)

(** The exceptions the service distinguishes: [fastapi.HTTPException],
    [RuntimeError], and every other [Exception] (raised by a library or by
    the interpreter), of which the service only reads [str(e)]. *)
Inductive exn :=
| HTTPException (status_code : Z) (detail : str)
| RuntimeError (msg : str)
| PyError (msg : str).

(** ** The outside world *)

Inductive ImageFilter :=
| GaussianBlur (radius : Q).

Record Externals := {
  World : Type;
  PILImage : Type;
  Enhancer : Type;
  (** [PIL.Image.open(io.BytesIO(b))] *)
  Image_open : bytes → World → (str + PILImage) * World;
  (** [img.mode] *)
  Image_mode : PILImage → str;
  (** [img.convert(mode)] *)
  Image_convert : PILImage → str → World → (str + PILImage) * World;
  (** [ImageEnhance.Contrast(img)] *)
  ImageEnhance_Contrast : PILImage → World → (str + Enhancer) * World;
  (** [enhancer.enhance(factor)] *)
  Enhancer_enhance : Enhancer → Q → World → (str + PILImage) * World;
  (** [img.filter(f)] *)
  Image_filter : PILImage → ImageFilter → World → (str + PILImage) * World;
  (** [pytesseract.image_to_string(img, lang=lang, config=config)] *)
  image_to_string : PILImage → str → str → World → (str + str) * World;
  (** [pdf2image.convert_from_bytes(b, dpi=dpi)] *)
  convert_from_bytes : bytes → Z → World → (str + list PILImage) * World;
  (** [str(HTTPException(status_code, detail))], which depends on the
      version of the web framework *)
  str_HTTPException : Z → str → str;
  (** the order in which [SUPPORTED_TYPES], a set, is iterated *)
  SUPPORTED_TYPES_order : list str
}.

(** Calls that leave the service, in the order they are made. *)
Inductive Event (E : Externals) :=
| EvRead (filename : str)
| EvOpen (b : bytes)
| EvConvert (img : PILImage E) (mode : str)
| EvContrast (img : PILImage E)
| EvEnhance (enh : Enhancer E) (factor : Q)
| EvFilter (img : PILImage E) (f : ImageFilter)
| EvRecognize (img : PILImage E) (lang config : str)
| EvRasterize (b : bytes) (dpi : Z).

Arguments EvRead {E}.
Arguments EvOpen {E}.
Arguments EvConvert {E}.
Arguments EvContrast {E}.
Arguments EvEnhance {E}.
Arguments EvFilter {E}.
Arguments EvRecognize {E}.
Arguments EvRasterize {E}.

Definition is_recognize {E} (ev : Event E) : bool :=
  match ev with EvRecognize _ _ _ => true | _ => false end.

Definition is_rasterize {E} (ev : Event E) : bool :=
  match ev with EvRasterize _ _ => true | _ => false end.

Record State (E : Externals) := mkState {
  world : World E;
  trace : list (Event E)
}.

Arguments mkState {E}.
Arguments world {E}.
Arguments trace {E}.

(** ** Computations that may raise *)

Module Py.

Definition M (E : Externals) (A : Type) : Type := State E → (exn + A) * State E.

Definition ret {E A} (a : A) : M E A := λ s, (inr a, s).

Definition raise {E A} (e : exn) : M E A := λ s, (inl e, s).

Definition bind {E A B} (m : M E A) (k : A → M E B) : M E B :=
  λ s, match m s with
       | (inr a, s') => k a s'
       | (inl e, s') => (inl e, s')
       end.

(** [try: m  except Exception as e: h e] *)
Definition try_except {E A} (m : M E A) (h : exn → M E A) : M E A :=
  λ s, match m s with
       | (inr a, s') => (inr a, s')
       | (inl e, s') => h e s'
       end.

(** A call that leaves the service: it is recorded, and an exception of
    the library reaches the service as [PyError]. *)
Definition call {E A} (ev : Event E) (f : World E → (str + A) * World E) : M E A :=
  λ s, let '(r, w) := f (world s) in
       (match r with inl msg => inl (PyError msg) | inr a => inr a end,
        mkState w (trace s ++ [ev])).

End Py.

Import Py.

#[export] Instance M_ret {E} : MRet (M E) := λ A, @ret E A.
#[export] Instance M_bind {E} : MBind (M E) := λ A B k m, @bind E A B m k.

Definition str_exn (E : Externals) (e : exn) : str :=
  match e with
  | HTTPException status_code detail => str_HTTPException E status_code detail
  | RuntimeError msg => msg
  | PyError msg => msg
  end.


(** ** pathlib *)

(** [pathlib.PurePosixPath(filename).suffix], as CPython 3.8 to 3.13
    computes it: the final component of the path (empty components and "."
    components are dropped), from its last dot on, unless that dot is the
    first or the last character of the component. *)
Module Pathlib.

Definition DOT : char := 46%N.
Definition SLASH : char := 47%N.

Fixpoint split_on (sep : char) (w : str) (s : str) : list str :=
  match s with
  | [] => [w]
  | c :: s' =>
      if (c =? sep)%N then w :: split_on sep [] s'
      else split_on sep (w ++ [c]) s'
  end.

Definition parts (filename : str) : list str :=
  filter (λ p, p ≠ [] ∧ p ≠ [DOT]) (split_on SLASH [] filename).

Definition name (filename : str) : str := default [] (last (parts filename)).

(** [s.rfind(c)], [None] for -1 *)
Fixpoint rfind (c : char) (s : str) : option nat :=
  match s with
  | [] => None
  | d :: s' =>
      match rfind c s' with
      | Some i => Some (S i)
      | None => if (d =? c)%N then Some 0 else None
      end
  end.

Definition suffix (filename : str) : str :=
  let name := name filename in
  match rfind DOT name with
  | Some i => if (0 <? i) && (i <? length name - 1) then drop i name else []
  | None => []
  end.

End Pathlib.

(** ** app/services/ocr.py *)

Module Ocr.
Section ocr.
Context {E : Externals}.

Definition RGB : str := lit "RGB".

(** The handler of the source returns [pil_img], which the first statement
    of the [try] block may have rebound: an exception raised by that
    statement finds the argument, an exception raised later finds the
    converted image. *)
Definition preprocess_image_for_ocr (pil_img : PILImage E) : M E (PILImage E) :=
  try_except
    (pil_img' ← (if bool_decide (Image_mode E pil_img ≠ RGB)
                 then call (EvConvert pil_img RGB) (Image_convert E pil_img RGB)
                 else mret pil_img);
     try_except
       (gray ← call (EvConvert pil_img' (lit "L")) (Image_convert E pil_img' (lit "L"));
        enhancer ← call (EvContrast gray) (ImageEnhance_Contrast E gray);
        enhanced ← call (EvEnhance enhancer (3 # 2)) (Enhancer_enhance E enhancer (3 # 2));
        processed ← call (EvFilter enhanced (GaussianBlur (1 # 2)))
                         (Image_filter E enhanced (GaussianBlur (1 # 2)));
        mret processed)
       (λ e, mret pil_img'))
    (λ e, mret pil_img).

Definition config : str := lit "--oem 3 --psm 3".

(** The [try] block of [extract_text_from_image_bytes]. *)
Definition image_first_attempt (image_bytes : bytes) (lang : str) : M E str :=
  img ← call (EvOpen image_bytes) (Image_open E image_bytes);
  proc ← preprocess_image_for_ocr img;
  text ← call (EvRecognize proc lang config) (image_to_string E proc lang config);
  let text := strip text in
  let text := join [SP] (split text) in
  mret text.

(** The [try] block inside its handler. *)
Definition image_fallback (image_bytes : bytes) (lang : str) : M E str :=
  img ← call (EvOpen image_bytes) (Image_open E image_bytes);
  img ← (if bool_decide (Image_mode E img ≠ RGB)
         then call (EvConvert img RGB) (Image_convert E img RGB)
         else mret img);
  text ← call (EvRecognize img lang config) (image_to_string E img lang config);
  mret (strip text).

Definition extract_text_from_image_bytes (image_bytes : bytes) (lang : str) : M E str :=
  try_except (image_first_attempt image_bytes lang)
    (λ e, try_except (image_fallback image_bytes lang)
            (λ fallback_error,
               raise (RuntimeError (lit "Image processing failed: " ++ str_exn E e)))).

Definition no_text_detected (i : nat) : str :=
  lit "[Page " ++ str_of_nat (i + 1) ++ lit ": No text detected]".

Definition processing_error (i : nat) : str :=
  lit "[Page " ++ str_of_nat (i + 1) ++ lit ": Processing error]".

(** The body of the loop over [enumerate(images)]. *)
Definition pdf_page (i : nat) (img : PILImage E) (lang : str)
    (page_texts : list str) : M E (list str) :=
  try_except
    (proc ← preprocess_image_for_ocr img;
     text ← call (EvRecognize proc lang config) (image_to_string E proc lang config);
     let page_text := strip text in
     match page_text with
     | _ :: _ => mret (page_texts ++ [page_text])
     | [] => mret (page_texts ++ [no_text_detected i])
     end)
    (λ e, mret (page_texts ++ [processing_error i])).

Fixpoint pdf_pages (i : nat) (images : list (PILImage E)) (lang : str)
    (page_texts : list str) : M E (list str) :=
  match images with
  | [] => mret page_texts
  | img :: images' =>
      page_texts ← pdf_page i img lang page_texts;
      pdf_pages (S i) images' lang page_texts
  end.

Definition extract_text_from_pdf_bytes (pdf_bytes : bytes) (lang : str) (dpi : Z)
    : M E (list str) :=
  images ← try_except
             (call (EvRasterize pdf_bytes dpi) (convert_from_bytes E pdf_bytes dpi))
             (λ e, raise (RuntimeError (lit "PDF conversion failed: " ++ str_exn E e)));
  pdf_pages 0 images lang [].

End ocr.
End Ocr.

(** ** app/main.py *)

Module Main.

Import Ocr.

Definition SUPPORTED_IMAGE_TYPES : gset str :=
  {[ lit ".png"; lit ".jpg"; lit ".jpeg"; lit ".bmp"; lit ".tiff"; lit ".webp" ]}.
Definition SUPPORTED_PDF_TYPES : gset str := {[ lit ".pdf" ]}.
Definition SUPPORTED_TYPES : gset str := SUPPORTED_IMAGE_TYPES ∪ SUPPORTED_PDF_TYPES.

(** An uploaded file.  A missing filename is the empty string: the source
    tests it with [not filename] only. *)
Record UploadFile := {
  filename : str;
  content : bytes
}.

(** The two shapes of the answer of [extract_text]. *)
Inductive Response :=
| NoTextResponse (text message file_type filename : str)
| TextResponse (text file_type filename : str) (text_length : nat) (language : str).

Definition response_text (r : Response) : str :=
  match r with
  | NoTextResponse text _ _ _ => text
  | TextResponse text _ _ _ _ => text
  end.

(** An entry of ["results"]; ["text_length"] is present in the entries of
    status success, ["error"] in those of status error. *)
Record BatchItem := {
  r_filename : str;
  file_type : str;
  text : str;
  status : str;
  text_length : option nat;
  error : option str
}.

Record BatchResponse := {
  results : list BatchItem;
  total_files : nat;
  successful : nat;
  failed : nat
}.

Section main.
Context {E : Externals}.

Definition validate_file_type (filename : str) : exn + str :=
  match filename with
  | [] => inl (HTTPException 400 (lit "Filename is required"))
  | _ =>
      let file_ext := lower (Pathlib.suffix filename) in
      if bool_decide (file_ext ∈ SUPPORTED_IMAGE_TYPES) then inr (lit "image")
      else if bool_decide (file_ext ∈ SUPPORTED_PDF_TYPES) then inr (lit "pdf")
      else inl (HTTPException 400
                  (lit "Unsupported file type. Supported types: "
                   ++ join (lit ", ") (SUPPORTED_TYPES_order E)))
  end.

Definition lift {A} (r : exn + A) : M E A := λ s, (r, s).

(** [await file.read()] *)
Definition read (file : UploadFile) : M E bytes :=
  call (EvRead (filename file)) (λ w, (inr (content file), w)).

(** ["\n\n".join([f"--- Page {i+1} ---\n{text}" for i, text in enumerate(page_texts)])] *)
Definition join_pages (page_texts : list str) : str :=
  join [LF; LF]
    (imap (λ i text, lit "--- Page " ++ str_of_nat (i + 1) ++ lit " ---" ++ [LF] ++ text)
          page_texts).

Definition extract_text (file : UploadFile) (language : str) (dpi : Z) : M E Response :=
  try_except
    (file_type ← lift (validate_file_type (filename file));
     file_content ← read file;
     match file_content with
     | [] => raise (HTTPException 400 (lit "Empty file"))
     | _ =>
         extracted_text ←
           (if bool_decide (file_type = lit "image") then
              try_except (extract_text_from_image_bytes file_content language)
                (λ e, raise (HTTPException 400 (lit "Invalid image file: " ++ str_exn E e)))
            else if bool_decide (file_type = lit "pdf") then
              try_except
                (page_texts ← extract_text_from_pdf_bytes file_content language dpi;
                 mret (join_pages page_texts))
                (λ e, raise (HTTPException 400 (lit "Invalid PDF file: " ++ str_exn E e)))
            else mret []);
         if bool_decide (extracted_text = []) || bool_decide (strip extracted_text = [])
         then mret (NoTextResponse [] (lit "No text could be extracted from the document")
                      file_type (filename file))
         else mret (TextResponse extracted_text file_type (filename file)
                      (length extracted_text) language)
     end)
    (λ e, match e with
          | HTTPException _ _ => raise e
          | _ => raise (HTTPException 500 (lit "Internal server error: " ++ str_exn E e))
          end).

Definition success_item (file : UploadFile) (file_type text : str) : BatchItem :=
  {| r_filename := filename file; file_type := file_type; text := text;
     status := lit "success"; text_length := Some (length text); error := None |}.

Definition error_item (file : UploadFile) (e : exn) : BatchItem :=
  {| r_filename := filename file; file_type := lit "unknown"; text := [];
     status := lit "error"; text_length := None; error := Some (str_exn E e) |}.

(** The [try] block of the loop over [files], up to the [append].  In the
    last branch of the conditional the source reads [text] without
    assigning it in this iteration; no value of [validate_file_type] leads
    there. *)
Definition process_file (file : UploadFile) (language : str) : M E (str * str) :=
  file_content ← read file;
  file_type ← lift (validate_file_type (filename file));
  text ←
    (if bool_decide (file_type = lit "image") then
       extract_text_from_image_bytes file_content language
     else if bool_decide (file_type = lit "pdf") then
       page_texts ← extract_text_from_pdf_bytes file_content language 300;
       mret (join_pages page_texts)
     else raise (PyError (lit "local variable 'text' referenced before assignment")));
  mret (file_type, text).

(** The body of the loop over [files]. *)
Definition batch_file (file : UploadFile) (language : str)
    (results : list BatchItem) : M E (list BatchItem) :=
  try_except
    ('(file_type, text) ← process_file file language;
     mret (results ++ [success_item file file_type text]))
    (λ e, mret (results ++ [error_item file e])).

Fixpoint batch_files (files : list UploadFile) (language : str)
    (results : list BatchItem) : M E (list BatchItem) :=
  match files with
  | [] => mret results
  | file :: files' =>
      results ← batch_file file language results;
      batch_files files' language results
  end.

Definition count_status (st : str) (results : list BatchItem) : nat :=
  length (filter (λ r, status r = st) results).

Definition extract_text_batch (files : list UploadFile) (language : str)
    : M E BatchResponse :=
  try_except
    (match files with
     | [] => raise (HTTPException 400 (lit "No files provided"))
     | _ =>
         if 10 <? length files
         then raise (HTTPException 400 (lit "Maximum 10 files allowed per batch"))
         else
           results ← batch_files files language [];
           mret {| results := results;
                   total_files := length files;
                   successful := count_status (lit "success") results;
                   failed := count_status (lit "error") results |}
     end)
    (λ e, raise (HTTPException 500 (lit "Batch processing failed: " ++ str_exn E e))).

(** The state in which the loop is after the files [files]. *)
Definition batch_state (files : list UploadFile) (language : str) (s : State E)
    : State E :=
  (batch_files files language [] s).2.

(** The entry the body of the loop adds for a file, and the state it
    leaves. *)
Definition batch_item (file : UploadFile) (language : str) (s : State E)
    : BatchItem * State E :=
  match process_file file language s with
  | (inr (file_type, text), s') => (success_item file file_type text, s')
  | (inl e, s') => (error_item file e, s')
  end.

Fixpoint batch_items (files : list UploadFile) (language : str) (s : State E)
    : list BatchItem * State E :=
  match files with
  | [] => ([], s)
  | file :: files' =>
      let '(item, s) := batch_item file language s in
      let '(items, s) := batch_items files' language s in
      (item :: items, s)
  end.

End main.
End Main.

(** ** The vocabulary of the specification *)

Module Spec.
Section spec.
Context {E : Externals}.

Import Ocr.

Definition recognitions (tr : list (Event E)) : list (Event E) :=
  filter (λ ev, is_recognize ev = true) tr.

Definition rasterizations (tr : list (Event E)) : list (Event E) :=
  filter (λ ev, is_rasterize ev = true) tr.

(** The status of a page result. *)
Inductive PageStatus :=
| Ok (text : str)
| NoTextDetected
| Error.

(** The status of one page of a PDF: what the body of the loop of
    [extract_text_from_pdf_bytes] finds for it. *)
Definition page_status (img : PILImage E) (lang : str) (s : State E)
    : PageStatus * State E :=
  match (proc ← preprocess_image_for_ocr img;
         call (EvRecognize proc lang config) (image_to_string E proc lang config)) s with
  | (inr text, s') =>
      (match strip text with [] => NoTextDetected | page_text => Ok page_text end, s')
  | (inl _, s') => (Error, s')
  end.

Fixpoint pdf_statuses (images : list (PILImage E)) (lang : str) (s : State E)
    : list PageStatus * State E :=
  match images with
  | [] => ([], s)
  | img :: images' =>
      let '(p, s) := page_status img lang s in
      let '(ps, s) := pdf_statuses images' lang s in
      (p :: ps, s)
  end.

(** What the page of index [i] puts after its marker line. *)
Definition page_entry (i : nat) (p : PageStatus) : str :=
  match p with
  | Ok text => text
  | NoTextDetected => no_text_detected i
  | Error => processing_error i
  end.

Definition marker_line (i : nat) : str :=
  lit "--- Page " ++ str_of_nat (i + 1) ++ lit " ---" ++ [LF].

(** The combined text in the words of the specification: for each page
    its marker line, followed by its text when its status is [Ok] and by
    nothing otherwise, the pages separated by a blank line. *)
Definition combined_text (pages : list PageStatus) : str :=
  join [LF; LF]
    (imap (λ i p, marker_line i ++ match p with Ok text => text | _ => [] end) pages).

(** The retry in the words of the specification: the page is recognised
    twice, the second time on the image as it was received, with the
    language of the first. *)
Definition retried_once (original : PILImage E) (lang : str)
    (tr : list (Event E)) : Prop :=
  ∃ proc config1 config2,
    recognitions tr = [EvRecognize proc lang config1; EvRecognize original lang config2].

(** [img] is the image decoded from [b], converted to RGB at most: none
    of the steps of the preprocessor made it. *)
Definition unprocessed (b : bytes) (img : PILImage E) : Prop :=
  ∃ img0 w w', Image_open E b w = (inr img0, w')
    ∧ (img = img0 ∨ ∃ w1 w2, Image_convert E img0 RGB w1 = (inr img, w2)).

End spec.
End Spec.

(** ** A scripted outside world

    A world to run the service in: images are the terms that record how
    they were made, the recognition engine reads its answers from a
    script, one per call, and the blur can be made to run out of memory. *)

Module Sim.

Inductive img :=
| Opened (b : bytes)
| Page (n : nat) (b : bytes)
| Converted (i : img) (mode : str)
| Enhanced (i : img) (factor : Q)
| Filtered (i : img) (f : ImageFilter).

(** A file whose first byte is the letter L decodes to a grayscale image,
    every other file and every page of a PDF to an RGB image. *)
Fixpoint mode (i : img) : str :=
  match i with
  | Opened (Byte.x4c :: _) => lit "L"
  | Opened _ => lit "RGB"
  | Page _ _ => lit "RGB"
  | Converted _ m => m
  | Enhanced i _ => mode i
  | Filtered i _ => mode i
  end.

Record world := {
  script : list (str + str);
  blur_fails : bool
}.

Definition open (b : bytes) (w : world) : (str + img) * world :=
  match b with
  | [] => (inl (lit "cannot identify image file"), w)
  | _ => (inr (Opened b), w)
  end.

Definition blur (i : img) (f : ImageFilter) (w : world) : (str + img) * world :=
  if blur_fails w then (inl (lit "MemoryError"), w) else (inr (Filtered i f), w).

Definition recognize (i : img) (lang config : str) (w : world) : (str + str) * world :=
  match script w with
  | [] => (inl (lit "tesseract is not installed"), w)
  | r :: rest => (r, {| script := rest; blur_fails := blur_fails w |})
  end.

(** A PDF has one page per byte. *)
Definition rasterize (b : bytes) (dpi : Z) (w : world) : (str + list img) * world :=
  match b with
  | [] => (inl (lit "Unable to get page count"), w)
  | _ => (inr (imap (λ n _, Page n b) b), w)
  end.

Definition env : Externals := {|
  World := world;
  PILImage := img;
  Enhancer := img;
  Image_open := open;
  Image_mode := mode;
  Image_convert := λ i m w, (inr (Converted i m), w);
  ImageEnhance_Contrast := λ i w, (inr i, w);
  Enhancer_enhance := λ i f w, (inr (Enhanced i f), w);
  Image_filter := blur;
  image_to_string := recognize;
  convert_from_bytes := rasterize;
  str_HTTPException := λ c d, str_of_nat (Z.to_nat c) ++ lit ": " ++ d;
  SUPPORTED_TYPES_order :=
    lit <$> [".pdf"; ".png"; ".jpg"; ".jpeg"; ".bmp"; ".tiff"; ".webp"]%string
|}.

Definition start (script : list (str + str)) (blur_fails : bool) : State env :=
  mkState (E := env) {| script := script; blur_fails := blur_fails |} [].

Definition data (s : string) : bytes := list_byte_of_string s.

Definition upload (name : string) (body : string) : Main.UploadFile :=
  {| Main.filename := lit name; Main.content := data body |}.

End Sim.

(** ** Texts of whitespace *)

(** A text in which every character is whitespace. *)
Definition blank (s : str) : Prop := Forall (λ c, isspace c = true) s.

(** An entry: a text that is not empty and has no whitespace at its ends. *)
Definition solid (t : str) : Prop := t ≠ [] ∧ trimmed t = true.

(** ** Kinds of calls *)

Module Calls.
Section calls.
Context {E : Externals}.

Definition is_read (ev : Event E) : bool :=
  match ev with EvRead _ => true | _ => false end.

Definition is_open (ev : Event E) : bool :=
  match ev with EvOpen _ => true | _ => false end.

(** The calls of the preprocessor: conversions, contrast and filter. *)
Definition is_image_op (ev : Event E) : bool :=
  match ev with
  | EvConvert _ _ | EvContrast _ | EvEnhance _ _ | EvFilter _ _ => true
  | _ => false
  end.

Definition reads (tr : list (Event E)) : list (Event E) :=
  filter (λ ev, is_read ev = true) tr.

Definition opens (tr : list (Event E)) : list (Event E) :=
  filter (λ ev, is_open ev = true) tr.

(** A call made for the image file [b] in the language [lang]: [b] is
    what is decoded, the engine gets [lang] and the settings of
    [Ocr.config], nothing is rasterised and no upload is read. *)
Definition image_call (b : bytes) (lang : str) (ev : Event E) : Prop :=
  match ev with
  | EvOpen b' => b' = b
  | EvRecognize _ lang' config' => lang' = lang ∧ config' = Ocr.config
  | EvConvert _ _ | EvContrast _ | EvEnhance _ _ | EvFilter _ _ => True
  | EvRead _ | EvRasterize _ _ => False
  end.

(** A call made for the PDF file [b] at [dpi] in the language [lang]. *)
Definition pdf_call (b : bytes) (dpi : Z) (lang : str) (ev : Event E) : Prop :=
  match ev with
  | EvRasterize b' dpi' => b' = b ∧ dpi' = dpi
  | EvRecognize _ lang' config' => lang' = lang ∧ config' = Ocr.config
  | EvConvert _ _ | EvContrast _ | EvEnhance _ _ | EvFilter _ _ => True
  | EvRead _ | EvOpen _ => False
  end.

End calls.
End Calls.

(** ** The answers of the single extraction *)

Module Answers.
Section answers.
Context {E : Externals}.
Import Main.

(** The answer when no text was found. *)
Definition no_text_response (kind : str) (file : UploadFile) : Response :=
  NoTextResponse [] (lit "No text could be extracted from the document")
    kind (filename file).

(** The answer with a text. *)
Definition text_response (text kind : str) (file : UploadFile) (language : str)
    : Response :=
  TextResponse text kind (filename file) (length text) language.

(** The state once the upload has been read. *)
Definition after_read (file : UploadFile) (s : State E) : State E :=
  mkState (world s) (trace s ++ [EvRead (filename file)]).

End answers.
End Answers.

(** ** The calls and the entries of a batch *)

Module Batch.
Section batch.
Context {E : Externals}.

(** A call made for a file of a batch in the language [lang], once the
    file is read: a rasterisation is at 300 dpi, the engine gets [lang] and
    the settings of [Ocr.config]. *)
Definition batch_call (lang : str) (ev : Event E) : Prop :=
  match ev with
  | EvRasterize _ dpi => dpi = 300%Z
  | EvRecognize _ lang' config' => lang' = lang ∧ config' = Ocr.config
  | EvRead _ => False
  | _ => True
  end.

(** The two shapes of an entry of ["results"]. *)
Definition item_shape (item : Main.BatchItem) : Prop :=
  (Main.status item = lit "success"
   ∧ (Main.file_type item = lit "image" ∨ Main.file_type item = lit "pdf")
   ∧ trimmed (Main.text item) = true
   ∧ Main.text_length item = Some (length (Main.text item))
   ∧ Main.error item = None)
  ∨ (Main.status item = lit "error"
     ∧ Main.text_length item = None
     ∧ is_Some (Main.error item)).

End batch.
End Batch.

(** ** app/services/ocr.py, continued *)

Module Simple.
Section simple.
Context {E : Externals}.

Import Ocr.

(** [pytesseract.image_to_string(img, lang=lang)]: the settings are left
    to their default, the empty string. *)
Definition extract_text_simple (image_bytes : bytes) (lang : str) : M E str :=
  try_except
    (img ← call (EvOpen image_bytes) (Image_open E image_bytes);
     img ← (if bool_decide (Image_mode E img ≠ RGB)
            then call (EvConvert img RGB) (Image_convert E img RGB)
            else mret img);
     text ← call (EvRecognize img lang []) (image_to_string E img lang []);
     mret (strip text))
    (λ e, raise (RuntimeError (lit "Text extraction failed: " ++ str_exn E e))).

End simple.
End Simple.

(** ** app/main.py, continued: the helpers on images and PDFs

    These functions call the libraries with other arguments than the
    functions of [ocr.py] do: the engine without a language, the rasteriser
    with a format and a number of threads.  The two calls are the fields of
    [Backend]; the functions run on the state of the world alone. *)

Module Helpers.

Record Backend := {
  base : Externals;
  (** [pytesseract.image_to_string(image, config=config)] *)
  image_to_string_config :
    PILImage base → str → World base → (str + str) * World base;
  (** [pdf2image.convert_from_bytes(b, dpi=dpi, fmt=fmt, thread_count=n)] *)
  convert_from_bytes_fmt :
    bytes → Z → str → Z → World base → (str + list (PILImage base)) * World base
}.

Definition R (B : Backend) (A : Type) : Type :=
  World (base B) → (exn + A) * World (base B).

#[export] Instance R_ret {B} : MRet (R B) := λ A a w, (inr a, w).

#[export] Instance R_bind {B} : MBind (R B) :=
  λ A C k m w, match m w with
               | (inr a, w') => k a w'
               | (inl e, w') => (inl e, w')
               end.

Definition throw {B A} (e : exn) : R B A := λ w, (inl e, w).

(** [try: m  except Exception as e: h e] *)
Definition catch {B A} (m : R B A) (h : exn → R B A) : R B A :=
  λ w, match m w with
       | (inr a, w') => (inr a, w')
       | (inl e, w') => h e w'
       end.

(** A call of a library: what it raises reaches the caller as [PyError]. *)
Definition lib {B A} (f : World (base B) → (str + A) * World (base B)) : R B A :=
  λ w, let '(r, w') := f w in
       (match r with inl msg => inl (PyError msg) | inr a => inr a end, w').

(** The paths [get_tesseract_path] looks at, in its order. *)
Definition tesseract_paths : list str :=
  [lit "/usr/bin/tesseract"; lit "/usr/local/bin/tesseract";
   lit "C:\Program Files\Tesseract-OCR\tesseract.exe"].

Fixpoint first_existing (exists_ : str → bool) (paths : list str) : option str :=
  match paths with
  | [] => None
  | path :: paths' => if exists_ path then Some path else first_existing exists_ paths'
  end.

(** [exists_] is [os.path.exists] when the module is loaded. *)
Definition get_tesseract_path (exists_ : str → bool) : str :=
  default (lit "tesseract") (first_existing exists_ tesseract_paths).

(** The value the module gives to [pytesseract.pytesseract.tesseract_cmd]
    when it is loaded, [None] when it leaves it alone. *)
Definition tesseract_cmd (exists_ : str → bool) : option str :=
  let tesseract_path := get_tesseract_path exists_ in
  if exists_ tesseract_path then Some tesseract_path else None.

(** The block of a page in the text of a PDF: the marker line of the page
    of index [page.1], then the text [page.2]. *)
Definition block (page : nat * str) : str :=
  lit "--- Page " ++ str_of_nat (page.1 + 1) ++ lit " ---" ++ [LF] ++ page.2.

Section helpers.
Context {B : Backend}.

Definition custom_config : str :=
  lit "--oem 3 --psm 6 -c tessedit_char_whitelist=ABCDEFGHIJKLMNOPQRSTUVWXYZabcdefghijklmnopqrstuvwxyz0123456789.,;:!?@#$%&*()_+-=[]{}|"
  ++ [34%N] ++ lit "\':<>?/\\ ".

Definition extract_text_from_image (image : PILImage (base B)) : R B str :=
  catch
    (text ← lib (image_to_string_config B image custom_config);
     let text := strip text in
     let text := join [SP] (split text) in
     mret text)
    (λ e, throw (HTTPException 500
                   (lit "Failed to extract text from image: " ++ str_exn (base B) e))).

(** The loop over [enumerate(images)]. *)
Fixpoint pdf_loop (i : nat) (images : list (PILImage (base B)))
    (extracted_texts : list str) : R B (list str) :=
  match images with
  | [] => mret extracted_texts
  | image :: images' =>
      page_text ← extract_text_from_image image;
      match page_text with
      | _ :: _ =>
          pdf_loop (S i) images'
            (extracted_texts
             ++ [lit "--- Page " ++ str_of_nat (i + 1) ++ lit " ---" ++ [LF] ++ page_text])
      | [] => pdf_loop (S i) images' extracted_texts
      end
  end.

Definition extract_text_from_pdf (pdf_bytes : bytes) : R B str :=
  catch
    (images ← lib (convert_from_bytes_fmt B pdf_bytes 300 (lit "PNG") 4);
     extracted_texts ← pdf_loop 0 images [];
     let full_text := join [LF; LF] extracted_texts in
     mret full_text)
    (λ e, throw (HTTPException 500
                   (lit "Failed to process PDF: " ++ str_exn (base B) e))).

(** What the engine answers on the pages of a document, in the order of
    the pages, each call in the world the call before it left, and the
    world after the last call; [None] when a call raises. *)
Fixpoint page_answers (images : list (PILImage (base B))) (w : World (base B))
    : option (list str * World (base B)) :=
  match images with
  | [] => Some ([], w)
  | image :: images' =>
      match image_to_string_config B image custom_config w with
      | (inr raw, w') =>
          match page_answers images' w' with
          | Some (raws, w'') => Some (raw :: raws, w'')
          | None => None
          end
      | (inl _, _) => None
      end
  end.

End helpers.

(** The pages with text among the pages that were answered [raws]: the
    index of the page in the document and its cleaned text, for the pages
    whose cleaned text is not empty. *)
Definition pages_with_text (raws : list str) : list (nat * str) :=
  filter (λ page, page.2 ≠ []) (imap (λ i raw, (i, normalize raw)) raws).

End Helpers.

(** ** config.py

    The settings that are computed: the origins allowed, the size limit
    and the limit of a batch.  [getenv] is the environment when the module
    is loaded. *)

Module Config.

Definition default_origins : list str :=
  [lit "http://localhost:3000"; lit "http://localhost:8000";
   lit "http://127.0.0.1:3000"; lit "http://127.0.0.1:8000"].

Definition COMMA : char := 44%N.

Definition CORS_ORIGINS (getenv : str → option str) : list str :=
  match getenv (lit "CORS_ORIGINS") with
  | Some value =>
      match value with
      | [] => default_origins
      | _ =>
          let custom_origins := Pathlib.split_on COMMA [] value in
          default_origins ++ (strip <$> custom_origins)
      end
  | None => default_origins
  end.

(** [int(os.getenv("MAX_FILE_SIZE", "50")) * 1024 * 1024], for the integer
    [megabytes] that [int] reads. *)
Definition MAX_FILE_SIZE (megabytes : Z) : Z := (megabytes * 1024 * 1024)%Z.

(** ["max_file_size_mb"] of [get_config_summary]. *)
Definition max_file_size_mb (MAX_FILE_SIZE : Z) : Z :=
  (MAX_FILE_SIZE `div` (1024 * 1024))%Z.

(** [int(os.getenv("BATCH_SIZE_LIMIT", "10"))]; [int] is the builtin, which
    raises on a text that is not a number.  [main.py] does not import this
    module. *)
Definition BATCH_SIZE_LIMIT (int : str → exn + Z) (getenv : str → option str)
    : exn + Z :=
  int (default (lit "10") (getenv (lit "BATCH_SIZE_LIMIT"))).

End Config.

(** ** The scripted world, continued *)

Module Sim2.

(** The engine without a language and the rasteriser with a format behave
    as in [Sim]. *)
Definition backend : Helpers.Backend := {|
  Helpers.base := Sim.env;
  Helpers.image_to_string_config := λ i config w, Sim.recognize i [] config w;
  Helpers.convert_from_bytes_fmt := λ b dpi fmt n w, Sim.rasterize b dpi w
|}.

Definition world (script : list (str + str)) : Sim.world :=
  {| Sim.script := script; Sim.blur_fails := false |}.

(** An environment in which [BATCH_SIZE_LIMIT] alone is set. *)
Definition getenv (limit : string) (name : str) : option str :=
  if bool_decide (name = lit "BATCH_SIZE_LIMIT") then Some (lit limit) else None.

Definition digit (c : char) : option Z :=
  if ((48 <=? c) && (c <=? 57))%N then Some (Z.of_N c - 48)%Z else None.

Fixpoint digits (acc : Z) (s : str) : option Z :=
  match s with
  | [] => Some acc
  | c :: s' =>
      match digit c with
      | Some d => digits (10 * acc + d)%Z s'
      | None => None
      end
  end.

(** An [int] that reads the texts made of the digits 0 to 9 and raises on
    every other text. *)
Definition int (s : str) : exn + Z :=
  match s with
  | [] => inl (PyError (lit "invalid literal for int() with base 10"))
  | _ =>
      match digits 0 s with
      | Some n => inr n
      | None => inl (PyError (lit "invalid literal for int() with base 10"))
      end
  end.

End Sim2.

(** * Properties *)

(** Literals are compared by evaluation, not unfolded in the goals. *)
Opaque lit.

(** ** Strings *)

Section strings.

Implicit Types (s w : str) (c : char).

Lemma lstrip_id s :
  match s with c :: _ => nows c | [] => True end → lstrip s = s.
Proof. destruct s as [|c s]; simpl; [done|]. intros ->. done. Qed.

Lemma rstrip_id s :
  match last s with Some c => nows c | None => True end → rstrip s = s.
Proof.
  intros H. unfold rstrip.
  rewrite lstrip_id; [apply reverse_involutive|].
  rewrite <- head_reverse in H.
  destruct (reverse s); simpl in *; done.
Qed.

Lemma strip_trimmed s : trimmed s = true → strip s = s.
Proof.
  unfold trimmed, strip. intros [H1 H2]%andb_true_iff.
  rewrite lstrip_id.
  - apply rstrip_id. destruct (last s); [|done].
    by apply negb_true_iff.
  - destruct s; [done|]. by apply negb_true_iff.
Qed.

Lemma join_nil_inv sep l : l ≠ [] → join sep l = [] → ∃ rest, l = [] :: rest.
Proof.
  destruct l as [|x rest]; [done|]. intros _.
  destruct rest; simpl; intros H.
  - subst. eauto.
  - apply app_eq_nil in H as [-> _]. eauto.
Qed.

Lemma join_cons sep x l : l ≠ [] → join sep (x :: l) = x ++ sep ++ join sep l.
Proof. destruct l; done. Qed.

Lemma split_from_nonempty w s :
  Forall (λ x, x ≠ []) (split_from w s).
Proof.
  revert w. induction s as [|c s IH]; intros w; simpl.
  - destruct w; repeat constructor. done.
  - destruct (isspace c); [|apply IH].
    destruct w; [apply IH|]. constructor; [done|apply IH].
Qed.

Lemma split_from_nows w s :
  Forall nows w → Forall (Forall nows) (split_from w s).
Proof.
  revert w. induction s as [|c s IH]; intros w Hw; simpl.
  - destruct w; [constructor|]. constructor; [done|constructor].
  - destruct (isspace c) eqn:Hc.
    + destruct w; [by apply IH|]. constructor; [done|by apply IH].
    + apply IH. apply Forall_app. split; [done|]. by repeat constructor.
Qed.

(** Joining the words of a single-spaced string gives the string back. *)
Lemma join_split_from w s :
  Forall nows w →
  single_spaced s = true →
  match last s with Some c => nows c | None => True end →
  (w = [] → match s with c :: _ => nows c | [] => True end) →
  join [SP] (split_from w s) = w ++ s.
Proof.
  revert w. induction s as [|c s IH]; intros w Hw Hs Hlast Hfirst.
  - simpl. destruct w; simpl; by rewrite ?app_nil_r.
  - simpl in Hs. apply andb_true_iff in Hs as [Hc Hs].
    simpl. destruct (isspace c) eqn:Hsp.
    + apply andb_true_iff in Hc as [Hc Hnext]. apply N.eqb_eq in Hc. subst c.
      destruct s as [|d s]; [simpl in Hlast; unfold nows in Hlast; congruence|].
      apply negb_true_iff in Hnext.
      destruct w as [|a w]; [specialize (Hfirst eq_refl); unfold nows in Hfirst; congruence|].
      assert (Hrest : join [SP] (split_from [] (d :: s)) = d :: s).
      { apply (IH []); [constructor|done|by rewrite last_cons_cons in Hlast|done]. }
      rewrite join_cons.
      * rewrite Hrest. done.
      * intros Hnil. rewrite Hnil in Hrest. done.
    + rewrite IH.
      * by rewrite <- app_assoc.
      * apply Forall_app. split; [done|]. by repeat constructor.
      * done.
      * destruct s; [done|]. by rewrite last_cons_cons in Hlast.
      * intros Hnil. by apply app_eq_nil in Hnil as [_ ?].
Qed.

Lemma single_spaced_app_nows w s :
  Forall nows w → single_spaced s = true → single_spaced (w ++ s) = true.
Proof.
  induction 1 as [|c w Hc Hw IH]; intros Hs; simpl; [done|].
  rewrite Hc. simpl. by apply IH.
Qed.

Lemma head_join sep x l : x ≠ [] → head (join sep (x :: l)) = head x.
Proof. destruct x; [done|]. destruct l; done. Qed.

Lemma last_join sep l x :
  Forall (λ y, y ≠ []) (l ++ [x]) → last (join sep (l ++ [x])) = last x.
Proof.
  induction l as [|y l IH]; intros H; [done|].
  change ((y :: l) ++ [x]) with (y :: (l ++ [x])) in *.
  apply Forall_cons in H as [Hy H]. specialize (IH H).
  remember (l ++ [x]) as m eqn:Hm. destruct m as [|z r]; [by destruct l|].
  rewrite join_cons by done. rewrite <- IH, !last_app.
  destruct (last (join sep (z :: r))) eqn:Hj; [done|].
  apply last_None in Hj. apply join_nil_inv in Hj as [? Hj]; [|done].
  inversion Hj; subst. by apply Forall_cons in H as [? _].
Qed.

Lemma single_spaced_join l :
  Forall (λ y, y ≠ []) l → Forall (Forall nows) l →
  single_spaced (join [SP] l) = true.
Proof.
  induction l as [|x l IH]; intros Hne Hw; [done|].
  apply Forall_cons in Hne as [Hx Hne]. apply Forall_cons in Hw as [Hxw Hw].
  destruct l as [|y l].
  - simpl. rewrite <- (app_nil_r x). by apply single_spaced_app_nows.
  - rewrite join_cons by done.
    apply single_spaced_app_nows; [done|].
    specialize (IH Hne Hw).
    assert (Hhd : head (join [SP] (y :: l)) = head y).
    { apply head_join. by apply Forall_cons in Hne as [? _]. }
    destruct y as [|d y]; [by apply Forall_cons in Hne as [? _]|].
    apply Forall_cons in Hw as [Hy _]. apply Forall_cons in Hy as [Hd _].
    change ([SP] ++ join [SP] ((d :: y) :: l)) with (SP :: join [SP] ((d :: y) :: l)).
    destruct (join [SP] ((d :: y) :: l)) as [|d' r] eqn:Hj; [done|].
    simpl in Hhd. inversion Hhd; subst d'.
    simpl. simpl in IH. rewrite Hd in IH |- *. done.
Qed.

Lemma trimmed_join l :
  Forall (λ y, y ≠ []) l → Forall (Forall nows) l →
  trimmed (join [SP] l) = true.
Proof.
  intros Hne Hw. unfold trimmed. apply andb_true_iff. split.
  - destruct l as [|x l]; [done|].
    apply Forall_cons in Hne as [Hx _]. apply Forall_cons in Hw as [Hxw _].
    pose proof (head_join [SP] x l Hx) as Hhd.
    destruct (join [SP] (x :: l)) as [|c r]; [done|].
    destruct x as [|c' x]; [done|]. simpl in Hhd. inversion Hhd; subst.
    apply Forall_cons in Hxw as [Hc _]. by rewrite Hc.
  - destruct l as [|x l _] using rev_ind; [done|].
    rewrite last_join by done.
    apply Forall_app in Hw as [_ Hw]. apply Forall_cons in Hw as [Hxw _].
    destruct (last x) as [c|] eqn:Hl; [|done].
    apply last_Some in Hl as [x' ->].
    apply Forall_app in Hxw as [_ Hc]. apply Forall_cons in Hc as [Hc _].
    by rewrite Hc.
Qed.

(** The cleaned text is trimmed and single-spaced, whatever the text. *)
Lemma normalize_is_normalized s : is_normalized (normalize s) = true.
Proof.
  unfold is_normalized, normalize, split. apply andb_true_iff. split.
  - apply trimmed_join; [apply split_from_nonempty|by apply split_from_nows].
  - apply single_spaced_join; [apply split_from_nonempty|by apply split_from_nows].
Qed.

End strings.

(** C7. Cleaning a text that is already trimmed and single-spaced returns
    it unchanged. *)
Theorem normalize_of_normalized (s : str) :
  is_normalized s = true → normalize s = s.
Proof.
  unfold is_normalized. intros [Ht Hs]%andb_true_iff.
  unfold normalize. rewrite (strip_trimmed s Ht). unfold split.
  apply (join_split_from [] s); [constructor|done| |].
  - apply andb_true_iff in Ht as [_ Ht]. destruct (last s); [|done].
    by apply negb_true_iff.
  - intros _. apply andb_true_iff in Ht as [Ht _]. destruct s; [done|].
    by apply negb_true_iff.
Qed.

Lemma normalize_of_normalized_witness :
  is_normalized (lit "Visa application No 7") = true
  ∧ normalize (lit "Visa application No 7") = lit "Visa application No 7".
Proof.
  split; [reflexivity|].
  apply (normalize_of_normalized (lit "Visa application No 7")). reflexivity.
Defined.

(** Cleaning twice is cleaning once. *)
Corollary normalize_idempotent (s : str) : normalize (normalize s) = normalize s.
Proof.
  destruct (is_normalized (normalize s)) eqn:H.
  - unfold is_normalized in H. apply andb_true_iff in H as [Ht Hs].
    unfold normalize at 1. rewrite (strip_trimmed _ Ht). unfold split.
    apply (join_split_from [] _); [constructor|done| |].
    + apply andb_true_iff in Ht as [_ Ht]. destruct (last (normalize s)); [|done].
      by apply negb_true_iff.
    + intros _. apply andb_true_iff in Ht as [Ht _]. destruct (normalize s); [done|].
      by apply negb_true_iff.
  - by rewrite normalize_is_normalized in H.
Qed.

Example normalize_ex :
  normalize (lit "  Visa   application" ++ [LF; 9%N] ++ lit "No 7 ") = lit "Visa application No 7".
Proof. reflexivity. Qed.

Example str_of_nat_ex : str_of_nat 12 = lit "12" ∧ str_of_nat 0 = lit "0".
Proof. split; reflexivity. Qed.

(** ** File types *)

Section classify.
Context (E : Externals).
Import Main.

Lemma elem_of_image_types (ext : str) :
  ext ∈ SUPPORTED_IMAGE_TYPES ↔
  ext = lit ".png" ∨ ext = lit ".jpg" ∨ ext = lit ".jpeg" ∨ ext = lit ".bmp"
  ∨ ext = lit ".tiff" ∨ ext = lit ".webp".
Proof.
  unfold SUPPORTED_IMAGE_TYPES. rewrite !elem_of_union, !elem_of_singleton. tauto.
Qed.

Lemma elem_of_pdf_types (ext : str) : ext ∈ SUPPORTED_PDF_TYPES ↔ ext = lit ".pdf".
Proof. unfold SUPPORTED_PDF_TYPES. by rewrite elem_of_singleton. Qed.

Lemma image_type_not_pdf (ext : str) :
  ext ∈ SUPPORTED_IMAGE_TYPES → ext ∉ SUPPORTED_PDF_TYPES.
Proof.
  rewrite elem_of_image_types, elem_of_pdf_types.
  intros H ->. repeat destruct H as [H|H]; vm_compute in H; discriminate H.
Qed.

Lemma image_type_nonempty (ext : str) : ext ∈ SUPPORTED_IMAGE_TYPES → ext ≠ [].
Proof.
  rewrite elem_of_image_types.
  intros H ->. repeat destruct H as [H|H]; vm_compute in H; discriminate H.
Qed.

(** The only values of [validate_file_type]. *)
Lemma validate_file_type_values (filename : str) :
  match validate_file_type (E := E) filename with
  | inr kind => kind = lit "image" ∨ kind = lit "pdf"
  | inl e => ∃ detail, e = HTTPException 400 detail
  end.
Proof.
  unfold validate_file_type. destruct filename; [eauto|].
  repeat case_bool_decide; eauto.
Qed.

End classify.

(** C4. A filename whose lowercase suffix is one of the six image
    suffixes is classified as an image, one whose lowercase suffix is .pdf
    as a PDF, and an empty filename or any other suffix is refused with
    the status 400; the content of the file is not an argument of the
    classification. *)
Theorem validate_file_type_by_suffix (E : Externals) (filename : str) :
  (lower (Pathlib.suffix filename) ∈ Main.SUPPORTED_IMAGE_TYPES →
   Main.validate_file_type (E := E) filename = inr (lit "image"))
  ∧ (lower (Pathlib.suffix filename) = lit ".pdf" →
     Main.validate_file_type (E := E) filename = inr (lit "pdf"))
  ∧ (filename = [] ∨ lower (Pathlib.suffix filename) ∉ Main.SUPPORTED_TYPES →
     ∃ detail, Main.validate_file_type (E := E) filename = inl (HTTPException 400 detail)).
Proof.
  unfold Main.validate_file_type. split; [|split].
  - intros Himg. destruct filename as [|c f].
    + by apply image_type_nonempty in Himg.
    + by rewrite bool_decide_eq_true_2.
  - intros Hpdf. destruct filename as [|c f]; [vm_compute in Hpdf; discriminate Hpdf|].
    rewrite bool_decide_eq_false_2.
    + rewrite bool_decide_eq_true_2; [done|]. by apply elem_of_pdf_types.
    + intros Himg%image_type_not_pdf. apply Himg. by apply elem_of_pdf_types.
  - intros [->|Hno]; [eauto|]. destruct filename as [|c f]; [eauto|].
    unfold Main.SUPPORTED_TYPES in Hno. apply not_elem_of_union in Hno as [Hi Hp].
    rewrite !bool_decide_eq_false_2 by done. eauto.
Qed.

Lemma validate_file_type_by_suffix_witness :
  Main.validate_file_type (E := Sim.env) (lit "scans/visa.PNG") = inr (lit "image")
  ∧ Main.validate_file_type (E := Sim.env) (lit "Form.Pdf") = inr (lit "pdf")
  ∧ (∃ detail, Main.validate_file_type (E := Sim.env) (lit "notes.txt")
               = inl (HTTPException 400 detail)).
Proof.
  split; [|split].
  - apply (validate_file_type_by_suffix Sim.env (lit "scans/visa.PNG")).
    apply elem_of_image_types. left. reflexivity.
  - apply (validate_file_type_by_suffix Sim.env (lit "Form.Pdf")). reflexivity.
  - apply (validate_file_type_by_suffix Sim.env (lit "notes.txt")). right.
    unfold Main.SUPPORTED_TYPES. apply not_elem_of_union.
    rewrite elem_of_image_types, elem_of_pdf_types.
    split; [intros H; repeat destruct H as [H|H]; vm_compute in H; discriminate H
           |intros H; vm_compute in H; discriminate H].
Defined.

(** ** Running the service *)

Ltac py_unfold :=
  unfold mbind, mret, M_bind, M_ret, bind, ret, try_except, raise, call, Main.lift.

(** Case analysis on the answer of the next call that leaves the service. *)
Ltac py_call :=
  match goal with
  | |- context [match ?f ?w with pair _ _ => _ end] =>
      lazymatch type of w with
      | World _ => destruct (f w) as [[?|?] ?] eqn:?; simpl
      end
  end.

(** ** The preprocessor *)

Section preprocess.
Context {E : Externals}.
Import Ocr Spec.

(** The preprocessor returns an image, whatever the image library does,
    and asks neither the recognition engine nor the rasteriser. *)
Lemma preprocess_runs (img : PILImage E) (s : State E) :
  ∃ proc w evs,
    preprocess_image_for_ocr img s = (inr proc, mkState w (trace s ++ evs))
    ∧ recognitions evs = [] ∧ rasterizations evs = [].
Proof.
  unfold preprocess_image_for_ocr. py_unfold.
  case_bool_decide; simpl; repeat py_call; rewrite <- ?app_assoc; simpl;
    try (eexists _, _, _; split; [reflexivity|split; reflexivity]).
  all: eexists _, _, []; rewrite app_nil_r; destruct s; split; [reflexivity|done].
Qed.

Lemma preprocess_never_raises (img : PILImage E) (s : State E) :
  ∃ proc s', preprocess_image_for_ocr img s = (inr proc, s').
Proof. destruct (preprocess_runs img s) as (proc & w & evs & H & _). eauto. Qed.

(** An image that is already RGB comes back untouched or blurred. *)
Lemma preprocess_rgb (img : PILImage E) (s : State E) :
  Image_mode E img = RGB →
  ∃ proc s', preprocess_image_for_ocr img s = (inr proc, s')
    ∧ (proc = img
       ∨ ∃ enhanced w w',
           Image_filter E enhanced (GaussianBlur (1 # 2)) w = (inr proc, w')).
Proof.
  intros Hm. unfold preprocess_image_for_ocr. py_unfold.
  rewrite bool_decide_eq_false_2 by (intros H; by apply H).
  simpl; repeat py_call; eauto 10.
Qed.

(** When the conversion to RGB itself raises, the argument comes back. *)
Lemma preprocess_rgb_conversion_fails (img : PILImage E) (s : State E) msg w :
  Image_mode E img ≠ RGB →
  Image_convert E img RGB (world s) = (inl msg, w) →
  preprocess_image_for_ocr img s = (inr img, mkState w (trace s ++ [EvConvert img RGB])).
Proof.
  intros Hm Hc. unfold preprocess_image_for_ocr. py_unfold.
  rewrite bool_decide_eq_true_2 by done. by rewrite Hc.
Qed.

(** When the conversion to RGB succeeds and a later step raises, the
    converted image comes back. *)
Lemma preprocess_later_step_fails (img rgb : PILImage E) (s : State E) msg w w' :
  Image_mode E img ≠ RGB →
  Image_convert E img RGB (world s) = (inr rgb, w) →
  Image_convert E rgb (lit "L") w = (inl msg, w') →
  preprocess_image_for_ocr img s
  = (inr rgb, mkState w' ((trace s ++ [EvConvert img RGB]) ++ [EvConvert rgb (lit "L")])).
Proof.
  intros Hm Hc Hg. unfold preprocess_image_for_ocr. py_unfold.
  rewrite bool_decide_eq_true_2 by done. rewrite Hc. simpl. by rewrite Hg.
Qed.

End preprocess.

(** C5. A grayscale image whose blur runs out of memory: the preprocessor
    does not raise, and what it returns is the RGB conversion of the image,
    not the image it was given. *)
Theorem preprocess_returns_converted_image :
  let original := Sim.Opened (Sim.data "L-scan") in
  let s := Sim.start [] true in
  fst (Ocr.preprocess_image_for_ocr (E := Sim.env) original s)
  = inr (Sim.Converted original (lit "RGB"))
  ∧ Sim.Converted original (lit "RGB") ≠ original.
Proof. split; [reflexivity|discriminate]. Qed.

(** ** Images *)

Section image.
Context {E : Externals}.
Import Ocr Spec.

(** A text of the first attempt is a cleaned text. *)
Lemma first_attempt_normalized (b : bytes) (lang : str) (s s' : State E) (t : str) :
  image_first_attempt b lang s = (inr t, s') →
  ∃ raw, t = normalize raw.
Proof.
  unfold image_first_attempt. py_unfold. py_call; [done|].
  match goal with |- context [preprocess_image_for_ocr ?i ?st] =>
    destruct (preprocess_runs i st) as (proc & ? & ? & -> & _) end.
  simpl. py_call; [done|]. intros [= <- <-]. eauto.
Qed.

Lemma extract_image_first_ok (b : bytes) (lang : str) (s s' : State E) (t : str) :
  image_first_attempt b lang s = (inr t, s') →
  extract_text_from_image_bytes b lang s = (inr t, s').
Proof. unfold extract_text_from_image_bytes, try_except. by intros ->. Qed.

Lemma extract_image_fallback (b : bytes) (lang : str) (s s1 : State E) (e : exn) :
  image_first_attempt b lang s = (inl e, s1) →
  extract_text_from_image_bytes b lang s
  = match image_fallback b lang s1 with
    | (inr t, s2) => (inr t, s2)
    | (inl _, s2) =>
        (inl (RuntimeError (lit "Image processing failed: " ++ str_exn E e)), s2)
    end.
Proof. unfold extract_text_from_image_bytes, try_except, raise. by intros ->. Qed.

(** The fallback asks the engine at most once, for the image as it was
    received, and only trims what the engine returns. *)
Lemma fallback_runs (b : bytes) (lang : str) (s : State E) :
  ∃ r w evs,
    image_fallback b lang s = (r, mkState w (trace s ++ evs))
    ∧ ((recognitions evs = [] ∧ ∃ e, r = inl e)
       ∨ ∃ img, recognitions evs = [EvRecognize img lang config] ∧ unprocessed b img)
    ∧ (∀ t, r = inr t → ∃ raw, t = strip raw).
Proof.
  unfold image_fallback, unprocessed. py_unfold. py_call.
  { eexists _, _, _. split; [reflexivity|]. split; [left; eauto|done]. }
  case_bool_decide; simpl.
  - py_call.
    { rewrite <- app_assoc. eexists _, _, _. split; [reflexivity|].
      split; [left; eauto|done]. }
    py_call; rewrite <- !app_assoc; (eexists _, _, _; split; [reflexivity|]);
      (split; [right; eexists; split; [reflexivity|eauto 10]|]); [done|].
    intros ? [= <-]. eauto.
  - py_call; rewrite <- !app_assoc; (eexists _, _, _; split; [reflexivity|]);
      (split; [right; eexists; split; [reflexivity|eauto 10]|]); [done|].
    intros ? [= <-]. eauto.
Qed.

End image.

(** C6. The first attempt fails and the fallback reads a text with two
    spaces in a row: the text is returned with both spaces, where the
    cleaning of the first attempt would have left one. *)
Theorem fallback_text_not_collapsed :
  let s := Sim.start [inl (lit "engine timeout"); inr (lit " Visa  No 7 ")] false in
  fst (Ocr.extract_text_from_image_bytes (E := Sim.env) (Sim.data "scan") (lit "eng") s)
  = inr (lit "Visa  No 7")
  ∧ is_normalized (lit "Visa  No 7") = false
  ∧ normalize (lit " Visa  No 7 ") = lit "Visa No 7".
Proof. repeat split; reflexivity. Qed.

(** ** PDF documents *)

Section pdf.
Context {E : Externals}.
Import Ocr Spec.

Lemma imap_imap {A B C} (f : nat → A → B) (g : nat → B → C) (l : list A) :
  imap g (imap f l) = imap (λ i x, g i (f i x)) l.
Proof.
  revert f g. induction l as [|x l IH]; intros f g; [done|].
  rewrite !imap_cons. f_equal. apply IH.
Qed.

(** The body of the loop adds the entry of the status of the page. *)
Lemma pdf_page_status (i : nat) (img : PILImage E) (lang : str)
    (page_texts : list str) (s : State E) :
  pdf_page i img lang page_texts s
  = let '(p, s') := page_status img lang s in
    (inr (page_texts ++ [page_entry i p]), s').
Proof.
  unfold pdf_page, page_status. py_unfold.
  destruct (preprocess_runs img s) as (proc & ? & ? & -> & _). simpl.
  py_call; [done|]. by destruct (strip _).
Qed.

(** The loop adds one entry per page, in the order of the pages. *)
Lemma pdf_pages_statuses (images : list (PILImage E)) (lang : str) :
  ∀ (i : nat) (page_texts : list str) (s : State E),
    pdf_pages i images lang page_texts s
    = let '(ps, s') := pdf_statuses images lang s in
      (inr (page_texts ++ imap (λ j p, page_entry (i + j) p) ps), s').
Proof.
  induction images as [|img images IH]; intros i page_texts s; simpl.
  - by rewrite app_nil_r.
  - unfold mbind, M_bind, bind. rewrite pdf_page_status.
    destruct (page_status img lang s) as [p s1]. rewrite IH.
    destruct (pdf_statuses images lang s1) as [ps s2].
    rewrite imap_cons, <- app_assoc. simpl.
    rewrite Nat.add_0_r. do 4 f_equal.
    apply imap_ext. intros j x _. simpl. f_equal. lia.
Qed.

Lemma pdf_statuses_length (images : list (PILImage E)) (lang : str) (s : State E) :
  length (pdf_statuses images lang s).1 = length images.
Proof.
  revert s. induction images as [|img images IH]; intros s; simpl; [done|].
  destruct (page_status img lang s) as [p s1]. specialize (IH s1).
  destruct (pdf_statuses images lang s1). simpl in *. by rewrite IH.
Qed.

(** A status [Ok] carries a text that is not empty. *)
Lemma page_status_ok (img : PILImage E) (lang : str) (s : State E) (t : str) :
  (page_status img lang s).1 = Ok t → t ≠ [] ∧ ∃ raw, t = strip raw.
Proof.
  unfold page_status.
  destruct ((_ ← preprocess_image_for_ocr img; _) s) as [[e|raw] s']; [done|].
  simpl. destruct (strip raw) eqn:Hs; [done|]. intros [= <-]. split; [done|eauto].
Qed.

(** The status of a page costs at most one call of the engine, on the
    page as the preprocessor returned it. *)
Lemma page_status_runs (img : PILImage E) (lang : str) (s : State E) :
  ∃ p w evs,
    page_status img lang s = (p, mkState w (trace s ++ evs))
    ∧ length (recognitions evs) = 1
    ∧ rasterizations evs = [].
Proof.
  unfold page_status. py_unfold.
  destruct (preprocess_runs img s) as (proc & w & evs & -> & Hrec & Hras). simpl.
  py_call; rewrite <- app_assoc; (eexists _, _, _; split; [reflexivity|]);
    unfold recognitions, rasterizations in *; rewrite !filter_app, ?Hrec, ?Hras; done.
Qed.

Lemma pdf_statuses_runs (images : list (PILImage E)) (lang : str) (s : State E) :
  ∃ ps w evs,
    pdf_statuses images lang s = (ps, mkState w (trace s ++ evs))
    ∧ length (recognitions evs) = length images
    ∧ rasterizations evs = [].
Proof.
  revert s. induction images as [|img images IH]; intros s; simpl.
  - exists [], (world s), []. rewrite app_nil_r. by destruct s.
  - destruct (page_status_runs img lang s) as (p & w1 & evs1 & -> & Hrec1 & Hras1).
    destruct (IH (mkState w1 (trace s ++ evs1))) as (ps & w2 & evs2 & -> & Hrec2 & Hras2).
    simpl. rewrite <- app_assoc. eexists _, _, _. split; [reflexivity|].
    unfold recognitions, rasterizations in *.
    rewrite !filter_app, length_app, Hrec1, Hrec2, Hras1, Hras2. done.
Qed.

End pdf.

Section combined.
Context {E : Externals}.
Import Ocr Spec Main.

Lemma lstrip_nil (s : str) : lstrip s = [] → Forall (λ c, isspace c = true) s.
Proof.
  induction s as [|c s IH]; simpl; [constructor|].
  destruct (isspace c) eqn:Hc; [|done]. intros H. constructor; auto.
Qed.

Lemma strip_nonempty (c : char) (s : str) : nows c → strip (c :: s) ≠ [].
Proof.
  intros Hc. unfold strip. simpl. rewrite Hc. unfold rstrip. intros H.
  apply (f_equal reverse) in H. rewrite reverse_involutive in H.
  change (reverse []) with (@nil char) in H.
  apply lstrip_nil in H. rewrite Forall_forall in H.
  specialize (H c). unfold nows in Hc. rewrite H in Hc; [done|].
  rewrite elem_of_reverse. left.
Qed.

Lemma join_pages_head (t : str) (ts : list str) :
  ∃ r, join_pages (t :: ts) = 45%N :: r.
Proof.
  unfold join_pages. rewrite imap_cons.
  change (lit "--- Page ") with (45%N :: lit "-- Page ").
  match goal with |- context [imap ?f ts] => destruct (imap f ts) end; simpl; eauto.
Qed.

Lemma join_pages_entries (ps : list PageStatus) :
  join_pages (imap (λ j p, page_entry (0 + j) p) ps)
  = join [LF; LF] (imap (λ i p, marker_line i ++ page_entry i p) ps).
Proof.
  unfold join_pages. rewrite imap_imap. f_equal. apply imap_ext.
  intros i p _. unfold marker_line. simpl. by rewrite <- !app_assoc.
Qed.

End combined.

(** C1, as the service does it.  The combined text of a PDF has, for each
    page in the order of the pages, the line [--- Page N ---] with N
    counted from 1, followed by the entry of the page, the pages separated
    by a blank line.  The entry of a page whose status is [Ok] is the text
    of the page, the entry of a page on which no text was detected is the
    line [[Page N: No text detected]], and the entry of a page that raised
    is the line [[Page N: Processing error]]. *)
Theorem pdf_combined_text (E : Externals) (file : Main.UploadFile)
    (language : str) (dpi : Z) (s : State E) (images : list (PILImage E)) (w : World E) :
  Main.validate_file_type (E := E) (Main.filename file) = inr (lit "pdf") →
  Main.content file ≠ [] →
  convert_from_bytes E (Main.content file) dpi (world s) = (inr images, w) →
  let s1 := mkState w (trace s ++ [EvRead (Main.filename file);
                                   EvRasterize (Main.content file) dpi]) in
  let pages := (Spec.pdf_statuses images language s1).1 in
  length pages = length images
  ∧ ∃ resp,
      Main.extract_text file language dpi s
      = (inr resp, (Spec.pdf_statuses images language s1).2)
      ∧ Main.response_text resp
        = join [LF; LF]
            (imap (λ i p, Spec.marker_line i ++ Spec.page_entry i p) pages).
Proof.
  intros Hval Hne Hras s1 pages. split; [apply pdf_statuses_length|].
  unfold Main.extract_text. py_unfold. rewrite Hval. simpl.
  destruct (Main.content file) as [|b0 bs] eqn:Hb; [done|].
  rewrite bool_decide_eq_false_2 by (intros H; vm_compute in H; discriminate H).
  rewrite bool_decide_eq_true_2 by done.
  unfold Ocr.extract_text_from_pdf_bytes. py_unfold. simpl. rewrite Hras.
  rewrite <- app_assoc. simpl.
  rewrite pdf_pages_statuses. fold s1. subst pages.
  destruct (Spec.pdf_statuses images language s1) as [ps s2]. simpl.
  rewrite join_pages_entries.
  destruct ps as [|p ps].
  - simpl. eexists. split; reflexivity.
  - rewrite <- join_pages_entries.
    destruct (join_pages_head (Spec.page_entry (0 + 0) p)
                (imap ((λ j p, Spec.page_entry (0 + j) p) ∘ S) ps)) as [r Hr].
    rewrite imap_cons, Hr.
    rewrite (bool_decide_eq_false_2 (45%N :: r = [])) by done.
    rewrite (bool_decide_eq_false_2 (strip (45%N :: r) = []))
      by (by apply strip_nonempty).
    simpl. eexists. split; reflexivity.
Qed.

Lemma pdf_combined_text_witness :
  let file := Sim.upload "visa.pdf" "xyz" in
  let s := Sim.start [inr (lit "hello world"); inr (lit "  "); inl (lit "boom")] false in
  ∃ resp,
    (Main.extract_text (E := Sim.env) file (lit "eng") 300 s).1 = inr resp
    ∧ Main.response_text resp
      = lit "--- Page 1 ---" ++ [LF] ++ lit "hello world" ++ [LF; LF]
        ++ lit "--- Page 2 ---" ++ [LF] ++ lit "[Page 2: No text detected]" ++ [LF; LF]
        ++ lit "--- Page 3 ---" ++ [LF] ++ lit "[Page 3: Processing error]".
Proof.
  intros file s.
  destruct (pdf_combined_text Sim.env file (lit "eng") 300 s
              (imap (λ n _, Sim.Page n (Sim.data "xyz")) (Sim.data "xyz"))
              (world s))
    as [_ (resp & Hrun & Htext)].
  - vm_compute. reflexivity.
  - discriminate.
  - reflexivity.
  - exists resp. split.
    + rewrite Hrun. reflexivity.
    + rewrite Htext. vm_compute. reflexivity.
Defined.

(** A PDF of one blank page: the status of the page is [NoTextDetected],
    and the combined text has a line of text after the marker line of the
    page. *)
Lemma blank_page_contributes_text :
  let file := Sim.upload "visa.pdf" "x" in
  let s := Sim.start [inr (lit "  ")] false in
  (Spec.pdf_statuses (E := Sim.env) [Sim.Page 0 (Sim.data "x")] (lit "eng") s).1
  = [Spec.NoTextDetected]
  ∧ ∃ resp,
      (Main.extract_text (E := Sim.env) file (lit "eng") 300 s).1 = inr resp
      ∧ Main.response_text resp
        = lit "--- Page 1 ---" ++ [LF] ++ lit "[Page 1: No text detected]"
      ∧ Main.response_text resp ≠ Spec.combined_text [Spec.NoTextDetected].
Proof.
  split; [vm_compute; reflexivity|].
  eexists. split; [vm_compute; reflexivity|].
  split; [vm_compute; reflexivity|]. vm_compute. discriminate.
Qed.

(** C3, as the service does it.  When the first attempt on an image
    document raises, the fallback runs once: it asks the engine at most
    once, for the image as it was received (converted to RGB at most), with
    the same language and settings, and when it raises as well the
    extraction raises [RuntimeError].  A page of a PDF is recognised once
    and not retried: when it raises, its entry is the line
    [[Page N: Processing error]]; whatever happens to a page, the loop goes
    on, every page gets its entry, and the engine is called once per
    page. *)
Theorem recognition_failure_handling (E : Externals) :
  (∀ (b : bytes) (lang : str) (s s1 : State E) (e : exn),
     Ocr.image_first_attempt b lang s = (inl e, s1) →
     ∃ r w evs,
       Ocr.image_fallback b lang s1 = (r, mkState w (trace s1 ++ evs))
       ∧ ((Spec.recognitions evs = [] ∧ ∃ e', r = inl e')
          ∨ ∃ img, Spec.recognitions evs = [EvRecognize img lang Ocr.config]
                   ∧ Spec.unprocessed b img)
       ∧ Ocr.extract_text_from_image_bytes b lang s
         = (match r with
            | inr t => inr t
            | inl _ => inl (RuntimeError (lit "Image processing failed: " ++ str_exn E e))
            end, mkState w (trace s1 ++ evs)))
  ∧ (∀ (i : nat) (img : PILImage E) (lang : str) (page_texts : list str) (s : State E),
       ∃ entry w evs,
         Ocr.pdf_page i img lang page_texts s
         = (inr (page_texts ++ [entry]), mkState w (trace s ++ evs))
         ∧ length (Spec.recognitions evs) = 1
         ∧ ((Spec.page_status img lang s).1 = Spec.Error
            → entry = Ocr.processing_error i))
  ∧ (∀ (images : list (PILImage E)) (i : nat) (lang : str) (page_texts : list str)
       (s : State E),
       ∃ entries w evs,
         Ocr.pdf_pages i images lang page_texts s
         = (inr (page_texts ++ entries), mkState w (trace s ++ evs))
         ∧ length entries = length images
         ∧ length (Spec.recognitions evs) = length images).
Proof.
  split; [|split].
  - intros b lang s s1 e Hfirst.
    destruct (fallback_runs b lang s1) as (r & w & evs & Hfb & Hrec & _).
    exists r, w, evs. split; [done|]. split; [done|].
    rewrite (extract_image_fallback _ _ _ _ _ Hfirst), Hfb. by destruct r.
  - intros i img lang page_texts s. rewrite pdf_page_status.
    destruct (page_status_runs img lang s) as (p & w & evs & Hp & Hrec & _).
    rewrite Hp. exists (Spec.page_entry i p), w, evs. simpl.
    split; [done|]. split; [done|]. by intros ->.
  - intros images i lang page_texts s. rewrite pdf_pages_statuses.
    pose proof (pdf_statuses_length images lang s) as Hlen.
    destruct (pdf_statuses_runs images lang s) as (ps & w & evs & Hps & Hrec & _).
    rewrite Hps in Hlen |- *. simpl in Hlen.
    eexists _, w, evs. split; [reflexivity|]. by rewrite length_imap.
Qed.

Lemma recognition_failure_handling_witness :
  let s := Sim.start [inl (lit "engine timeout"); inr (lit " Visa ")] false in
  ∃ s', Ocr.extract_text_from_image_bytes (E := Sim.env) (Sim.data "scan") (lit "eng") s
        = (inr (lit "Visa"), s')
        ∧ length (Spec.recognitions (trace s')) = 2.
Proof.
  intros s.
  destruct (recognition_failure_handling Sim.env) as [Himg _].
  destruct (Himg (Sim.data "scan") (lit "eng") s
              (Ocr.image_first_attempt (E := Sim.env) (Sim.data "scan") (lit "eng") s).2
              (PyError (lit "engine timeout")))
    as (r & w & evs & Hfb & _ & Hrun).
  - vm_compute. reflexivity.
  - eexists. split.
    + rewrite Hrun.
      assert (Hr : r = inr (lit "Visa")).
      { apply (f_equal fst) in Hfb. vm_compute in Hfb. symmetry. exact Hfb. }
      rewrite Hr. reflexivity.
    + apply (f_equal snd) in Hfb. simpl in Hfb. rewrite <- Hfb. vm_compute. reflexivity.
Defined.

(** A page of a PDF on which the engine raises, while a second call
    would have read the page: the engine is called once, the page is not
    retried, and its entry is the error line. *)
Lemma pdf_page_not_retried :
  let page := Sim.Page 0 (Sim.data "x") in
  let s := Sim.start [inl (lit "engine timeout"); inr (lit "Visa")] false in
  let r := Ocr.extract_text_from_pdf_bytes (E := Sim.env) (Sim.data "x") (lit "eng") 300 s in
  r.1 = inr [lit "[Page 1: Processing error]"]
  ∧ length (Spec.recognitions (trace r.2)) = 1
  ∧ ¬ Spec.retried_once (E := Sim.env) page (lit "eng") (trace r.2).
Proof.
  split; [vm_compute; reflexivity|]. split; [vm_compute; reflexivity|].
  intros (proc & c1 & c2 & H). vm_compute in H. discriminate H.
Qed.

(** ** Batches *)

Section batch.
Context {E : Externals}.
Import Ocr Spec Main.

(** The body of the loop does not raise: it adds the entry of the file. *)
Lemma batch_file_runs (file : UploadFile) (language : str)
    (results : list BatchItem) (s : State E) :
  batch_file file language results s
  = (inr (results ++ [(batch_item file language s).1]), (batch_item file language s).2).
Proof.
  unfold batch_file, batch_item. py_unfold.
  destruct (process_file file language s) as [[e|[file_type text]] s']; done.
Qed.

Lemma batch_item_status (file : UploadFile) (language : str) (s : State E) :
  let item := (batch_item file language s).1 in
  r_filename item = filename file
  ∧ (status item = lit "success" ∧ status item ≠ lit "error"
     ∨ status item = lit "error" ∧ status item ≠ lit "success")
  ∧ (status item = lit "error" → file_type item = lit "unknown" ∧ text item = []).
Proof.
  unfold batch_item.
  destruct (process_file file language s) as [[e|[file_type text]] s']; simpl.
  - split; [done|]. split; [right|done]. split; [done|].
    intros H. vm_compute in H. discriminate H.
  - split; [done|]. split; [left|].
    + split; [done|]. intros H. vm_compute in H. discriminate H.
    + intros H. vm_compute in H. discriminate H.
Qed.

(** The loop is the list of the entries of the files, each made in the
    state its predecessors left. *)
Lemma batch_files_items (files : list UploadFile) (language : str) :
  ∀ (results : list BatchItem) (s : State E),
    batch_files files language results s
    = (inr (results ++ (batch_items files language s).1),
       (batch_items files language s).2).
Proof.
  induction files as [|file files IH]; intros results s; simpl.
  - by rewrite app_nil_r.
  - unfold mbind, M_bind, bind. rewrite batch_file_runs.
    destruct (batch_item file language s) as [item s1]. simpl. rewrite IH.
    destruct (batch_items files language s1) as [items s2]. simpl.
    by rewrite <- app_assoc.
Qed.

Lemma batch_state_items (files : list UploadFile) (language : str) (s : State E) :
  batch_state files language s = (batch_items files language s).2.
Proof. unfold batch_state. by rewrite batch_files_items. Qed.

Lemma batch_items_length (files : list UploadFile) (language : str) (s : State E) :
  length (batch_items files language s).1 = length files.
Proof.
  revert s. induction files as [|file files IH]; intros s; simpl; [done|].
  destruct (batch_item file language s) as [item s1]. specialize (IH s1).
  destruct (batch_items files language s1). simpl in *. by rewrite IH.
Qed.

Lemma batch_items_lookup (files : list UploadFile) (language : str) :
  ∀ (i : nat) (file : UploadFile) (s : State E),
    files !! i = Some file →
    (batch_items files language s).1 !! i
    = Some (batch_item file language (batch_items (take i files) language s).2).1.
Proof.
  induction files as [|f files IH]; intros i file s Hi; [done|].
  destruct i as [|i]; simpl in *.
  - inversion Hi; subst. destruct (batch_item file language s) as [item s1].
    by destruct (batch_items files language s1).
  - destruct (batch_item f language s) as [item s1].
    specialize (IH i file s1 Hi).
    destruct (batch_items files language s1) as [items s2].
    destruct (batch_items (take i files) language s1) as [items' s3].
    done.
Qed.

Lemma batch_items_status (files : list UploadFile) (language : str) (s : State E) :
  Forall (λ item,
            (status item = lit "success" ∧ status item ≠ lit "error"
             ∨ status item = lit "error" ∧ status item ≠ lit "success")
            ∧ (status item = lit "error" → file_type item = lit "unknown" ∧ text item = []))
         (batch_items files language s).1.
Proof.
  revert s. induction files as [|file files IH]; intros s; simpl; [constructor|].
  pose proof (batch_item_status file language s) as (_ & H1 & H2).
  destruct (batch_item file language s) as [item s1]. specialize (IH s1).
  destruct (batch_items files language s1) as [items s2]. by constructor.
Qed.

(** Every entry is counted once. *)
Lemma count_status_total (items : list BatchItem) :
  Forall (λ item, status item = lit "success" ∧ status item ≠ lit "error"
                  ∨ status item = lit "error" ∧ status item ≠ lit "success") items →
  count_status (lit "success") items + count_status (lit "error") items = length items.
Proof.
  unfold count_status. induction 1 as [|item items Hitem _ IH]; [done|].
  rewrite !filter_cons.
  destruct Hitem as [[Hs He]|[He Hs]]; repeat case_decide; try done; simpl; lia.
Qed.

End batch.

(** C2, as the service does it.  A batch of one to ten files gets a
    result with one entry per file, in the order of the files: the entry of
    a file is an error entry when processing the file raised and a success
    entry otherwise, and the files after it are processed all the same;
    [successful + failed = total_files], the number of entries. *)
Theorem batch_isolates_failures (E : Externals) (files : list Main.UploadFile)
    (language : str) (s : State E) :
  files ≠ [] →
  length files ≤ 10 →
  ∃ r s',
    Main.extract_text_batch files language s = (inr r, s')
    ∧ Main.total_files r = length files
    ∧ length (Main.results r) = length files
    ∧ Main.successful r + Main.failed r = Main.total_files r
    ∧ ∀ i file, files !! i = Some file →
        ∃ item, Main.results r !! i = Some item
          ∧ match Main.process_file file language
                    (Main.batch_state (take i files) language s) with
            | (inr (file_type, text), _) =>
                item = Main.success_item file file_type text
            | (inl e, _) => item = Main.error_item (E := E) file e
            end.
Proof.
  intros Hne Hlen. unfold Main.extract_text_batch. py_unfold.
  destruct files as [|f0 files0] eqn:Hfiles; [done|]. rewrite <- Hfiles in *.
  destruct (10 <? length files) eqn:Hlim; [apply Nat.ltb_lt in Hlim; lia|].
  rewrite batch_files_items. simpl.
  eexists _, _. split; [reflexivity|]. simpl.
  split; [done|]. split; [apply batch_items_length|]. split.
  - rewrite count_status_total; [apply batch_items_length|].
    eapply Forall_impl; [apply batch_items_status|]. by intros item [H _].
  - intros i file Hi. eexists. split; [by apply batch_items_lookup|].
    rewrite batch_state_items. unfold Main.batch_item.
    by destruct (Main.process_file file language _) as [[e|[file_type text]] s'].
Qed.

Lemma batch_isolates_failures_witness :
  let files := [Sim.upload "a.png" "xyz"; Sim.upload "b.png" EmptyString; Sim.upload "c.pdf" "q"] in
  let s := Sim.start [inr (lit " a  b "); inr (lit "ok")] false in
  ∃ r s',
    Main.extract_text_batch (E := Sim.env) files (lit "eng") s = (inr r, s')
    ∧ Main.total_files r = 3
    ∧ length (Main.results r) = 3
    ∧ Main.successful r + Main.failed r = Main.total_files r.
Proof.
  intros files s.
  destruct (batch_isolates_failures Sim.env files (lit "eng") s)
    as (r & s' & Hrun & Htotal & Hlen & Hsum & _).
  - discriminate.
  - simpl. lia.
  - exists r, s'. done.
Defined.

(** Three files of which the second has no bytes. *)
Example batch_with_empty_file :
  let files := [Sim.upload "a.png" "xyz"; Sim.upload "b.png" EmptyString; Sim.upload "c.pdf" "q"] in
  let s := Sim.start [inr (lit " a  b "); inr (lit "ok")] false in
  match (Main.extract_text_batch (E := Sim.env) files (lit "eng") s).1 with
  | inr r =>
      Main.total_files r = 3 ∧ Main.successful r = 2 ∧ Main.failed r = 1
      ∧ Main.r_filename <$> Main.results r = [lit "a.png"; lit "b.png"; lit "c.pdf"]
      ∧ Main.status <$> Main.results r = [lit "success"; lit "error"; lit "success"]
  | inl _ => False
  end.
Proof. vm_compute. repeat split; reflexivity. Qed.

(** The empty batch is within the limit and gets no result. *)
Lemma empty_batch_is_refused :
  let s := Sim.start [] false in
  length ([] : list Main.UploadFile) ≤ 10
  ∧ Main.extract_text_batch (E := Sim.env) [] (lit "eng") s
    = (inl (HTTPException 500 (lit "Batch processing failed: 400: No files provided")), s)
  ∧ ¬ ∃ r s', Main.extract_text_batch (E := Sim.env) [] (lit "eng") s = (inr r, s').
Proof.
  split; [simpl; lia|]. split; [vm_compute; reflexivity|].
  intros (r & s' & H). vm_compute in H. discriminate H.
Qed.

Section single.
Context {E : Externals}.
Import Ocr Spec Main.

Lemma validate_file_type_raises (filename : str) (e : exn) :
  validate_file_type (E := E) filename = inl e → ∃ detail, e = HTTPException 400 detail.
Proof.
  intros H. pose proof (validate_file_type_values E filename) as Hv.
  by rewrite H in Hv.
Qed.

End single.

(** C9, as the service does it.  A file of no bytes whose name has a
    supported suffix is refused with the status 400 and the detail
    [Empty file] once it has been read; a file of no bytes whose name is
    empty or has another suffix is refused by the classification, before it
    is read.  Either way the extraction raises, and neither the rasteriser
    nor the recognition engine is called. *)
Theorem empty_file_fails_fast (E : Externals) (file : Main.UploadFile)
    (language : str) (dpi : Z) (s : State E) :
  Main.content file = [] →
  (∀ kind, Main.validate_file_type (E := E) (Main.filename file) = inr kind →
     Main.extract_text file language dpi s
     = (inl (HTTPException 400 (lit "Empty file")),
        mkState (world s) (trace s ++ [EvRead (Main.filename file)])))
  ∧ (∀ e, Main.validate_file_type (E := E) (Main.filename file) = inl e →
       Main.extract_text file language dpi s = (inl e, s))
  ∧ ∃ e w evs,
      Main.extract_text file language dpi s = (inl e, mkState w (trace s ++ evs))
      ∧ Spec.recognitions evs = [] ∧ Spec.rasterizations evs = [].
Proof.
  intros Hempty.
  assert (Hok : ∀ kind, Main.validate_file_type (E := E) (Main.filename file) = inr kind →
     Main.extract_text file language dpi s
     = (inl (HTTPException 400 (lit "Empty file")),
        mkState (world s) (trace s ++ [EvRead (Main.filename file)]))).
  { intros kind Hval. unfold Main.extract_text, Main.read. py_unfold.
    rewrite Hval. simpl. by rewrite Hempty. }
  assert (Hbad : ∀ e, Main.validate_file_type (E := E) (Main.filename file) = inl e →
       Main.extract_text file language dpi s = (inl e, s)).
  { intros e Hval. unfold Main.extract_text. py_unfold. rewrite Hval.
    by destruct (validate_file_type_raises _ _ Hval) as [detail ->]. }
  split; [done|]. split; [done|].
  destruct (Main.validate_file_type (E := E) (Main.filename file)) as [e|kind] eqn:Hval.
  - exists e, (world s), []. rewrite (Hbad e eq_refl), app_nil_r. by destruct s.
  - eexists _, _, _. rewrite (Hok kind eq_refl). done.
Qed.

Lemma empty_file_fails_fast_witness :
  let file := Sim.upload "visa.png" EmptyString in
  let s := Sim.start [inr (lit "Visa")] false in
  Main.extract_text (E := Sim.env) file (lit "eng") 300 s
  = (inl (HTTPException 400 (lit "Empty file")),
     mkState (world s) (trace s ++ [EvRead (lit "visa.png")])).
Proof.
  intros file s.
  destruct (empty_file_fails_fast Sim.env file (lit "eng") 300 s) as (Hok & _ & _).
  - reflexivity.
  - apply (Hok (lit "image")). vm_compute. reflexivity.
Defined.

(** A file of no bytes named [notes.txt]: the extraction raises what the
    classification raises, not the error of the empty file. *)
Lemma empty_file_with_unsupported_name :
  let file := Sim.upload "notes.txt" EmptyString in
  let s := Sim.start [] false in
  Main.content file = []
  ∧ (Main.extract_text (E := Sim.env) file (lit "eng") 300 s).1
    = inl (HTTPException 400
             (lit "Unsupported file type. Supported types: .pdf, .png, .jpg, .jpeg, .bmp, .tiff, .webp"))
  ∧ (Main.extract_text (E := Sim.env) file (lit "eng") 300 s).1
    ≠ inl (HTTPException 400 (lit "Empty file")).
Proof.
  split; [reflexivity|]. split; [vm_compute; reflexivity|].
  vm_compute. discriminate.
Qed.

(** C10. In the result of a batch, an entry of status error has the file
    type [unknown] and an empty text, also when the file had been
    classified before it failed. *)
Theorem error_items_are_unknown (E : Externals) (files : list Main.UploadFile)
    (language : str) (s s' : State E) (r : Main.BatchResponse) :
  Main.extract_text_batch files language s = (inr r, s') →
  ∀ i item, Main.results r !! i = Some item →
    Main.status item = lit "error" →
    Main.file_type item = lit "unknown" ∧ Main.text item = [].
Proof.
  unfold Main.extract_text_batch. py_unfold.
  destruct files as [|f files0] eqn:Hfiles; [done|]. rewrite <- Hfiles.
  destruct (10 <? length files); [done|].
  rewrite batch_files_items. simpl. intros [= <- <-] i item Hi.
  pose proof (batch_items_status files language s) as Hall.
  rewrite Forall_lookup in Hall. by destruct (Hall i item Hi) as [_ H].
Qed.

Lemma error_items_are_unknown_witness :
  let files := [Sim.upload "a.png" "xyz"; Sim.upload "b.png" EmptyString] in
  let s := Sim.start [inr (lit "Visa")] false in
  Main.validate_file_type (E := Sim.env) (lit "b.png") = inr (lit "image")
  ∧ ∃ r s' item,
      Main.extract_text_batch (E := Sim.env) files (lit "eng") s = (inr r, s')
      ∧ Main.results r !! 1 = Some item
      ∧ Main.status item = lit "error"
      ∧ Main.file_type item = lit "unknown" ∧ Main.text item = [].
Proof.
  intros files s. split; [vm_compute; reflexivity|].
  eexists _, _, _. split; [vm_compute; reflexivity|].
  split; [vm_compute; reflexivity|]. split; [vm_compute; reflexivity|].
  eapply error_items_are_unknown
    with (E := Sim.env) (files := files) (language := lit "eng") (s := s) (i := 1);
    vm_compute; reflexivity.
Defined.

(** * Further properties *)

(** ** Cleaning a text *)

Section words.

Implicit Types (s w : str) (c : char).

Lemma lstrip_split s : ∃ ws, blank ws ∧ s = ws ++ lstrip s.
Proof.
  induction s as [|c s (ws & Hws & IH)]; [exists []; split; [constructor|done]|]. simpl.
  destruct (isspace c) eqn:Hc.
  - exists (c :: ws). split; [by constructor|]. simpl. by f_equal.
  - exists []. split; [constructor|done].
Qed.

Lemma lstrip_head s : match lstrip s with c :: _ => nows c | [] => True end.
Proof.
  induction s as [|c s IH]; simpl; [done|].
  by destruct (isspace c) eqn:Hc.
Qed.

Lemma rstrip_split s : ∃ ws, blank ws ∧ s = rstrip s ++ ws.
Proof.
  destruct (lstrip_split (reverse s)) as (ws & Hws & H).
  exists (reverse ws). split.
  - unfold blank in *. rewrite Forall_forall in *. intros c Hc.
    apply Hws. by apply elem_of_reverse.
  - unfold rstrip. rewrite <- reverse_app, <- H. by rewrite reverse_involutive.
Qed.

Lemma rstrip_last s : match last (rstrip s) with Some c => nows c | None => True end.
Proof.
  unfold rstrip. rewrite <- head_reverse, reverse_involutive.
  pose proof (lstrip_head (reverse s)) as H. by destruct (lstrip (reverse s)).
Qed.

Lemma strip_is_trimmed s : trimmed (strip s) = true.
Proof.
  unfold trimmed, strip. apply andb_true_iff. split.
  - destruct (rstrip_split (lstrip s)) as (ws & _ & H).
    pose proof (lstrip_head s) as Hh.
    destruct (rstrip (lstrip s)) as [|c r]; [done|].
    rewrite H in Hh. simpl in Hh. by rewrite Hh.
  - pose proof (rstrip_last (lstrip s)) as H.
    destruct (last (rstrip (lstrip s))); [|done]. by rewrite H.
Qed.

Lemma split_from_blank w ws :
  blank ws → split_from w ws = match w with [] => [] | _ => [w] end.
Proof.
  intros H. revert w. induction H as [|c ws Hc _ IH]; intros w; simpl; [done|].
  rewrite Hc. destruct w; [apply IH|]. by rewrite IH.
Qed.

Lemma split_from_app_blank w s ws :
  blank ws → split_from w (s ++ ws) = split_from w s.
Proof.
  intros H. revert w. induction s as [|c s IH]; intros w; simpl.
  - by apply split_from_blank.
  - destruct (isspace c); [|apply IH]. destruct w; by rewrite IH.
Qed.

Lemma split_from_blank_app ws s : blank ws → split_from [] (ws ++ s) = split_from [] s.
Proof.
  induction 1 as [|c ws Hc _ IH]; simpl; [done|]. by rewrite Hc.
Qed.

Lemma split_strip s : split (strip s) = split s.
Proof.
  unfold split, strip.
  destruct (lstrip_split s) as (ws1 & Hws1 & H1).
  destruct (rstrip_split (lstrip s)) as (ws2 & Hws2 & H2).
  rewrite H1 at 2. rewrite (split_from_blank_app _ _ Hws1).
  rewrite H2 at 2. by rewrite (split_from_app_blank _ _ _ Hws2).
Qed.

Lemma split_from_app_word w x s :
  Forall nows x → split_from w (x ++ s) = split_from (w ++ x) s.
Proof.
  intros H. revert w. induction H as [|c x Hc _ IH]; intros w; simpl.
  - by rewrite app_nil_r.
  - rewrite Hc, IH. by rewrite <- app_assoc.
Qed.

Lemma split_from_join w l :
  Forall (λ x, x ≠ []) l → Forall (Forall nows) l →
  split_from w (join [SP] l)
  = match l with
    | [] => match w with [] => [] | _ => [w] end
    | x :: rest => (w ++ x) :: rest
    end.
Proof.
  revert w. induction l as [|x l IH]; intros w Hne Hw; [done|].
  apply Forall_cons in Hne as [Hx Hne]. apply Forall_cons in Hw as [Hxw Hw].
  destruct l as [|y l].
  - simpl. rewrite <- (app_nil_r x) at 1. rewrite split_from_app_word by done.
    simpl. destruct (w ++ x) eqn:Hwx; [|done].
    apply app_eq_nil in Hwx as [_ ?]. done.
  - rewrite join_cons by done. rewrite split_from_app_word by done.
    change ([SP] ++ join [SP] (y :: l)) with (SP :: join [SP] (y :: l)).
    cbn [split_from]. change (isspace SP) with true. cbn iota.
    rewrite (IH [] Hne Hw). simpl.
    destruct (w ++ x) eqn:Hwx; [|done].
    apply app_eq_nil in Hwx as [_ ?]. done.
Qed.

Lemma split_from_word w s : w ≠ [] → split_from w s ≠ [].
Proof.
  revert w. induction s as [|d s IH]; intros w Hw; simpl; [by destruct w|].
  destruct (isspace d); [by destruct w|]. apply IH. by destruct w.
Qed.

Lemma split_blank s : split s = [] ↔ blank s.
Proof.
  unfold split. split.
  - induction s as [|c s IH]; simpl; [constructor|].
    destruct (isspace c) eqn:Hc.
    + intros H. constructor; [done|by apply IH].
    + intros H. by apply split_from_word in H.
  - intros H. by rewrite split_from_blank.
Qed.

Lemma split_normalize s : split (normalize s) = split s.
Proof.
  unfold normalize. cbv zeta. rewrite <- (split_strip s).
  generalize (strip s). intros t. unfold split at 1. rewrite split_from_join.
  - unfold split. by destruct (split_from [] t).
  - apply split_from_nonempty.
  - by apply split_from_nows.
Qed.

End words.

(** X1. Whatever the text, the cleaned text is trimmed and single-spaced,
    and cleaning it again changes nothing. *)
Theorem normalize_canonical (s : str) :
  is_normalized (normalize s) = true ∧ normalize (normalize s) = normalize s.
Proof. split; [apply normalize_is_normalized|apply normalize_idempotent]. Qed.

(** X2. Cleaning loses whitespace only: the words of the cleaned text are
    the words of the text, in their order. *)
Theorem normalize_keeps_words (s : str) : split (normalize s) = split s.
Proof. apply split_normalize. Qed.

(** X3. The cleaned text is empty exactly when the text has whitespace
    only. *)
Theorem normalize_empty_iff_blank (s : str) :
  normalize s = [] ↔ Forall (λ c, isspace c = true) s.
Proof.
  rewrite <- (split_blank s). split.
  - intros H. rewrite <- split_normalize, H. done.
  - intros H. unfold normalize. by rewrite split_strip, H.
Qed.

Lemma normalize_empty_iff_blank_witness : normalize [LF; SP; 9%N; 160%N] = [].
Proof.
  apply (normalize_empty_iff_blank [LF; SP; 9%N; 160%N]).
  repeat constructor.
Defined.

(** ** The calls of the image path *)

Section image_calls.
Context {E : Externals}.
Import Ocr Spec Calls.

Lemma filter_none {A} (P Q : A → Prop) `{∀ x, Decision (Q x)} (l : list A) :
  Forall P l → (∀ x, P x → ¬ Q x) → filter Q l = [].
Proof.
  intros Hl HPQ. induction Hl as [|x l Hx _ IH]; [done|].
  rewrite filter_cons. destruct (decide (Q x)) as [HQ|_]; [|done].
  by destruct (HPQ x Hx).
Qed.

Lemma image_ops_silent (evs : list (Event E)) :
  Forall (λ ev, is_image_op ev = true) evs →
  recognitions evs = [] ∧ rasterizations evs = [] ∧ opens evs = [] ∧ reads evs = [].
Proof.
  intros H. unfold recognitions, rasterizations, opens, reads.
  repeat split; apply (filter_none _ _ _ H); by intros [].
Qed.

Lemma image_ops_image_call (b : bytes) (lang : str) (evs : list (Event E)) :
  Forall (λ ev, is_image_op ev = true) evs → Forall (image_call b lang) evs.
Proof. intros H. eapply Forall_impl; [exact H|]. by intros []. Qed.

Lemma image_ops_pdf_call (b : bytes) (dpi : Z) (lang : str) (evs : list (Event E)) :
  Forall (λ ev, is_image_op ev = true) evs → Forall (pdf_call b dpi lang) evs.
Proof. intros H. eapply Forall_impl; [exact H|]. by intros []. Qed.

Lemma preprocess_image_ops (img : PILImage E) (s : State E) :
  ∃ proc w evs,
    preprocess_image_for_ocr img s = (inr proc, mkState w (trace s ++ evs))
    ∧ Forall (λ ev, is_image_op ev = true) evs
    ∧ length evs ≤ 5.
Proof.
  unfold preprocess_image_for_ocr. py_unfold.
  case_bool_decide; simpl; repeat py_call; rewrite <- ?app_assoc; simpl;
    try (eexists _, _, _; split; [reflexivity|split; [by repeat constructor|simpl; lia]]).
  all: eexists _, _, []; rewrite app_nil_r; destruct s;
    (split; [reflexivity|split; [constructor|simpl; lia]]).
Qed.

Lemma first_attempt_calls (b : bytes) (lang : str) (s : State E) :
  ∃ r w evs,
    image_first_attempt b lang s = (r, mkState w (trace s ++ evs))
    ∧ Forall (image_call b lang) evs
    ∧ length (opens evs) = 1
    ∧ length (recognitions evs) ≤ 1
    ∧ (∀ t, r = inr t → length (recognitions evs) = 1).
Proof.
  unfold image_first_attempt. py_unfold. py_call.
  { eexists _, _, _. split; [reflexivity|]. split; [by repeat constructor|].
    split; [done|]. split; [simpl; lia|done]. }
  match goal with |- context [preprocess_image_for_ocr ?i ?st] =>
    destruct (preprocess_image_ops i st) as (proc & w1 & evs & -> & Hops & _) end.
  destruct (image_ops_silent evs Hops) as (Hrec & _ & Hopen & _).
  simpl. py_call; rewrite <- !app_assoc; (eexists _, _, _; split; [reflexivity|]).
  all: split;
    [ apply Forall_app; split; [by repeat constructor|];
      apply Forall_app; split; [by apply image_ops_image_call|by repeat constructor]|].
  all: unfold opens, recognitions in *; rewrite !filter_app, ?Hrec, ?Hopen; simpl.
  all: split; [done|]; split; [lia|done].
Qed.

Lemma fallback_calls (b : bytes) (lang : str) (s : State E) :
  ∃ r w evs,
    image_fallback b lang s = (r, mkState w (trace s ++ evs))
    ∧ Forall (image_call b lang) evs
    ∧ length (opens evs) = 1
    ∧ length (recognitions evs) ≤ 1.
Proof.
  unfold image_fallback. py_unfold. py_call.
  { eexists _, _, _. split; [reflexivity|]. split; [by repeat constructor|].
    split; [done|simpl; lia]. }
  case_bool_decide; simpl; repeat py_call; rewrite <- ?app_assoc;
    (eexists _, _, _; split; [reflexivity|]);
    (split; [by repeat constructor|]); (split; [done|simpl; lia]).
Qed.

(** What the two attempts leave behind, according to the first. *)
Lemma extract_image_calls (b : bytes) (lang : str) (s : State E) :
  ∃ r w evs,
    extract_text_from_image_bytes b lang s = (r, mkState w (trace s ++ evs))
    ∧ Forall (image_call b lang) evs
    ∧ match (image_first_attempt b lang s).1 with
      | inr _ => length (opens evs) = 1 ∧ length (recognitions evs) = 1
      | inl _ => length (opens evs) = 2 ∧ length (recognitions evs) ≤ 2
      end.
Proof.
  destruct (first_attempt_calls b lang s) as (r1 & w1 & evs1 & H1 & Hc1 & Ho1 & Hr1 & Hok).
  destruct r1 as [e|t].
  - rewrite (extract_image_fallback _ _ _ _ _ H1), H1. simpl.
    destruct (fallback_calls b lang (mkState w1 (trace s ++ evs1)))
      as (r2 & w2 & evs2 & H2 & Hc2 & Ho2 & Hr2).
    rewrite H2. simpl. rewrite <- app_assoc.
    exists (match r2 with
            | inr t => inr t
            | inl _ => inl (RuntimeError (lit "Image processing failed: " ++ str_exn E e))
            end), w2, (evs1 ++ evs2).
    split; [by destruct r2|].
    split; [by apply Forall_app|].
    unfold opens, recognitions in *. rewrite !filter_app, !length_app. lia.
  - rewrite (extract_image_first_ok _ _ _ _ _ H1), H1. simpl.
    eexists _, _, _. split; [reflexivity|]. split; [done|].
    split; [done|by apply (Hok t)].
Qed.

Lemma extract_image_trimmed (b : bytes) (lang : str) (s s' : State E) (t : str) :
  extract_text_from_image_bytes b lang s = (inr t, s') → trimmed t = true.
Proof.
  intros Hrun.
  destruct (image_first_attempt b lang s) as [[e|t0] s1] eqn:H1.
  - rewrite (extract_image_fallback _ _ _ _ _ H1) in Hrun.
    destruct (fallback_runs b lang s1) as (r & w & evs & Hfb & _ & Hstrip).
    rewrite Hfb in Hrun. destruct r as [e'|t']; [done|].
    injection Hrun as <- _. destruct (Hstrip t' eq_refl) as [raw ->].
    apply strip_is_trimmed.
  - rewrite (extract_image_first_ok _ _ _ _ _ H1) in Hrun. injection Hrun as <- _.
    destruct (first_attempt_normalized _ _ _ _ _ H1) as [raw ->].
    pose proof (normalize_is_normalized raw) as Hn.
    unfold is_normalized in Hn. by apply andb_true_iff in Hn as [? _].
Qed.

Lemma extract_image_error (b : bytes) (lang : str) (s s' : State E) (e : exn) :
  extract_text_from_image_bytes b lang s = (inl e, s') →
  ∃ e0 s1,
    image_first_attempt b lang s = (inl e0, s1)
    ∧ e = RuntimeError (lit "Image processing failed: " ++ str_exn E e0).
Proof.
  intros Hrun.
  destruct (image_first_attempt b lang s) as [[e0|t0] s1] eqn:H1.
  - rewrite (extract_image_fallback _ _ _ _ _ H1) in Hrun.
    destruct (image_fallback b lang s1) as [[e'|t'] s2]; [|done].
    injection Hrun as <- _. eauto.
  - by rewrite (extract_image_first_ok _ _ _ _ _ H1) in Hrun.
Qed.

End image_calls.

(** X4. A text returned for an image has no whitespace at either end,
    whether the first attempt or the fallback read it. *)
Theorem image_text_is_trimmed (E : Externals) (b : bytes) (lang : str)
    (s s' : State E) (t : str) :
  Ocr.extract_text_from_image_bytes b lang s = (inr t, s') → trimmed t = true.
Proof. apply extract_image_trimmed. Qed.

Lemma image_text_is_trimmed_witness :
  let s := Sim.start [inl (lit "engine timeout"); inr [LF; 32%N; 86%N; 32%N; 9%N]] false in
  ∃ t s', Ocr.extract_text_from_image_bytes (E := Sim.env) (Sim.data "scan") (lit "eng") s
          = (inr t, s')
          ∧ trimmed t = true.
Proof.
  intros s. eexists _, _. split; [vm_compute; reflexivity|].
  eapply image_text_is_trimmed with (E := Sim.env) (b := Sim.data "scan")
                                    (lang := lit "eng") (s := s).
  vm_compute. reflexivity.
Defined.

(** X5. When the extraction of an image raises, it raises [RuntimeError]
    with the message of the error of the first attempt; what the fallback
    raised is not reported. *)
Theorem image_error_is_first_error (E : Externals) (b : bytes) (lang : str)
    (s s' : State E) (e : exn) :
  Ocr.extract_text_from_image_bytes b lang s = (inl e, s') →
  ∃ e0 s1,
    Ocr.image_first_attempt b lang s = (inl e0, s1)
    ∧ e = RuntimeError (lit "Image processing failed: " ++ str_exn E e0).
Proof. apply extract_image_error. Qed.

Lemma image_error_is_first_error_witness :
  let s := Sim.start [inl (lit "engine timeout")] false in
  ∃ e0 s1,
    Ocr.image_first_attempt (E := Sim.env) (Sim.data "scan") (lit "eng") s = (inl e0, s1)
    ∧ (Ocr.extract_text_from_image_bytes (E := Sim.env) (Sim.data "scan") (lit "eng") s).1
      = inl (RuntimeError (lit "Image processing failed: " ++ str_exn Sim.env e0)).
Proof.
  intros s.
  destruct (image_error_is_first_error Sim.env (Sim.data "scan") (lit "eng") s
              (Ocr.extract_text_from_image_bytes (E := Sim.env) (Sim.data "scan") (lit "eng") s).2
              (RuntimeError (lit "Image processing failed: engine timeout")))
    as (e0 & s1 & H1 & He).
  - vm_compute. reflexivity.
  - exists e0, s1. split; [done|]. rewrite <- He. vm_compute. reflexivity.
Defined.

(** X6. The extraction of an image decodes the bytes it was given and
    asks the engine in the language it was given, with the settings
    [--oem 3 --psm 3]; it rasterises nothing and reads no upload.  When the
    first attempt returns, there is one decoding and one call of the
    engine; when it raises, there are two decodings and at most two calls of
    the engine. *)
Theorem image_extraction_calls (E : Externals) (b : bytes) (lang : str) (s : State E) :
  ∃ r w evs,
    Ocr.extract_text_from_image_bytes b lang s = (r, mkState w (trace s ++ evs))
    ∧ Forall (Calls.image_call b lang) evs
    ∧ match (Ocr.image_first_attempt b lang s).1 with
      | inr _ => length (Calls.opens evs) = 1 ∧ length (Spec.recognitions evs) = 1
      | inl _ => length (Calls.opens evs) = 2 ∧ length (Spec.recognitions evs) ≤ 2
      end.
Proof. apply extract_image_calls. Qed.

(** X7. The preprocessor returns an image whatever the image library
    does, after at most five calls, all of them conversions, contrast or
    filter: it never decodes, rasterises or asks the engine. *)
Theorem preprocess_absorbs_failures (E : Externals) (img : PILImage E) (s : State E) :
  ∃ proc w evs,
    Ocr.preprocess_image_for_ocr img s = (inr proc, mkState w (trace s ++ evs))
    ∧ Forall (λ ev, Calls.is_image_op ev = true) evs
    ∧ length evs ≤ 5.
Proof. apply preprocess_image_ops. Qed.

(** X8. An image that is already RGB is not converted to RGB; it comes
    back as it was given unless the grayscale conversion, the contrast and
    the blur all return, one after the other, in which case the blurred
    image comes back. *)
Theorem preprocess_rgb_original_or_blurred (E : Externals) (img : PILImage E)
    (s : State E) :
  Image_mode E img = Ocr.RGB →
  ∃ proc w evs,
    Ocr.preprocess_image_for_ocr img s = (inr proc, mkState w (trace s ++ evs))
    ∧ (EvConvert img Ocr.RGB ∉ evs)
    ∧ (proc = img
       ∨ ∃ gray enhancer enhanced w1 w2 w3,
           Image_convert E img (lit "L") (world s) = (inr gray, w1)
           ∧ ImageEnhance_Contrast E gray w1 = (inr enhancer, w2)
           ∧ Enhancer_enhance E enhancer (3 # 2) w2 = (inr enhanced, w3)
           ∧ Image_filter E enhanced (GaussianBlur (1 # 2)) w3 = (inr proc, w)).
Proof.
  intros Hm. unfold Ocr.preprocess_image_for_ocr. py_unfold.
  rewrite bool_decide_eq_false_2 by (intros H; by apply H).
  assert (Hl : Ocr.RGB ≠ lit "L") by (intros H; vm_compute in H; discriminate H).
  simpl; repeat py_call; rewrite <- ?app_assoc; simpl;
    (eexists _, _, _; split; [reflexivity|]; split;
     [ intros H; repeat (apply elem_of_cons in H as [H|H]);
       try (by apply elem_of_nil in H); try discriminate H;
       injection H as H; by apply Hl
     | eauto 12 ]).
Qed.

Lemma preprocess_rgb_original_or_blurred_witness :
  let original := Sim.Opened (Sim.data "scan") in
  let s := Sim.start [] true in
  (Ocr.preprocess_image_for_ocr (E := Sim.env) original s).1 = inr original.
Proof.
  intros original s.
  destruct (preprocess_rgb_original_or_blurred Sim.env original s)
    as (proc & w & evs & Hrun & _ & [->|Hchain]).
  - vm_compute. reflexivity.
  - by rewrite Hrun.
  - destruct Hchain as (gray & enh & enhanced & w1 & w2 & w3 & H1 & H2 & H3 & H4).
    vm_compute in H1. injection H1 as <- <-.
    vm_compute in H2. injection H2 as <- <-.
    vm_compute in H3. injection H3 as <- <-.
    vm_compute in H4. discriminate H4.
Defined.

Section simple.
Context {E : Externals}.
Import Ocr Spec Calls Simple.

Lemma simple_runs (b : bytes) (lang : str) (s : State E) :
  ∃ r w evs,
    extract_text_simple b lang s = (r, mkState w (trace s ++ evs))
    ∧ length (opens evs) = 1
    ∧ length (recognitions evs) ≤ 1
    ∧ Forall (λ ev, match ev with
                    | EvRecognize _ lang' config' => lang' = lang ∧ config' = []
                    | EvOpen b' => b' = b
                    | EvConvert _ mode => mode = RGB
                    | _ => False
                    end) evs
    ∧ match r with
      | inr t => ∃ raw, t = strip raw
      | inl e => ∃ e0, e = RuntimeError (lit "Text extraction failed: " ++ str_exn E e0)
      end.
Proof.
  unfold extract_text_simple. py_unfold. py_call.
  { eexists _, _, _. split; [reflexivity|]. split; [done|]. split; [simpl; lia|].
    split; [by repeat constructor|by eexists (PyError _)]. }
  case_bool_decide; simpl; repeat py_call; rewrite <- ?app_assoc;
    (eexists _, _, _; split; [reflexivity|]);
    (split; [done|]); (split; [simpl; lia|]);
    (split; [by repeat constructor|first [by eexists (PyError _)|eauto]]).
Qed.

End simple.

(** X9. The simple extraction decodes the bytes once, converts to RGB at
    most, and asks the engine at most once, in the language given and with
    empty settings.  A text it returns is trimmed; whatever goes wrong, it
    raises [RuntimeError] with a message that starts with
    [Text extraction failed: ]. *)
Theorem simple_extraction (E : Externals) (b : bytes) (lang : str) (s : State E) :
  ∃ r w evs,
    Simple.extract_text_simple b lang s = (r, mkState w (trace s ++ evs))
    ∧ length (Calls.opens evs) = 1
    ∧ length (Spec.recognitions evs) ≤ 1
    ∧ Forall (λ ev, match ev with
                    | EvRecognize _ lang' config' => lang' = lang ∧ config' = []
                    | EvOpen b' => b' = b
                    | EvConvert _ mode => mode = Ocr.RGB
                    | _ => False
                    end) evs
    ∧ match r with
      | inr t => trimmed t = true
      | inl e => ∃ e0, e = RuntimeError (lit "Text extraction failed: " ++ str_exn E e0)
      end.
Proof.
  destruct (simple_runs b lang s) as (r & w & evs & Hrun & Ho & Hr & Hev & Hres).
  exists r, w, evs. repeat (split; [done|]).
  destruct r as [e|t]; [done|]. destruct Hres as [raw ->]. apply strip_is_trimmed.
Qed.

(** ** The calls and the entries of the PDF path *)

Section pdf_calls.
Context {E : Externals}.
Import Ocr Spec Calls.

Lemma trimmed_wrap (c1 c2 : char) (a x b : str) :
  nows c1 → nows c2 → trimmed ((c1 :: a) ++ x ++ b ++ [c2]) = true.
Proof.
  intros H1 H2. unfold trimmed. apply andb_true_iff. split.
  - simpl. by rewrite H1.
  - rewrite !app_assoc, last_snoc. by rewrite H2.
Qed.

Lemma no_text_detected_solid (i : nat) : solid (no_text_detected i).
Proof.
  unfold solid, no_text_detected.
  change (lit "[Page ") with (91%N :: lit "Page ").
  change (lit ": No text detected]") with (lit ": No text detected" ++ [93%N]).
  split; [done|]. by apply trimmed_wrap.
Qed.

Lemma processing_error_solid (i : nat) : solid (processing_error i).
Proof.
  unfold solid, processing_error.
  change (lit "[Page ") with (91%N :: lit "Page ").
  change (lit ": Processing error]") with (lit ": Processing error" ++ [93%N]).
  split; [done|]. by apply trimmed_wrap.
Qed.

Lemma page_status_calls (b : bytes) (dpi : Z) (img : PILImage E) (lang : str)
    (s : State E) :
  ∃ p w evs,
    page_status img lang s = (p, mkState w (trace s ++ evs))
    ∧ Forall (pdf_call b dpi lang) evs
    ∧ length (recognitions evs) = 1
    ∧ ∀ i, solid (page_entry i p).
Proof.
  unfold page_status. py_unfold.
  destruct (preprocess_image_ops img s) as (proc & w & evs & -> & Hops & _).
  destruct (image_ops_silent evs Hops) as (Hrec & _). simpl.
  py_call; rewrite <- app_assoc; (eexists _, _, _; split; [reflexivity|]).
  all: split; [apply Forall_app; split;
                 [by apply image_ops_pdf_call|by repeat constructor]|].
  all: split; [unfold recognitions in *; by rewrite filter_app, Hrec|].
  - intros i. apply processing_error_solid.
  - intros i. destruct (strip s0) as [|c t] eqn:Hs; simpl.
    + apply no_text_detected_solid.
    + split; [done|]. rewrite <- Hs. apply strip_is_trimmed.
Qed.

Lemma pdf_statuses_calls (b : bytes) (dpi : Z) (images : list (PILImage E))
    (lang : str) (s : State E) :
  ∃ ps w evs,
    pdf_statuses images lang s = (ps, mkState w (trace s ++ evs))
    ∧ Forall (pdf_call b dpi lang) evs
    ∧ length (recognitions evs) = length images
    ∧ length ps = length images
    ∧ Forall (λ p, ∀ i, solid (page_entry i p)) ps.
Proof.
  revert s. induction images as [|img images IH]; intros s; simpl.
  - exists [], (world s), []. rewrite app_nil_r. destruct s. by repeat split.
  - destruct (page_status_calls b dpi img lang s) as (p & w1 & evs1 & -> & Hc1 & Hr1 & Hp).
    destruct (IH (mkState w1 (trace s ++ evs1)))
      as (ps & w2 & evs2 & -> & Hc2 & Hr2 & Hlen & Hps).
    simpl. rewrite <- app_assoc. eexists _, _, _. split; [reflexivity|].
    split; [by apply Forall_app|].
    split; [unfold recognitions in *; rewrite filter_app, length_app; lia|].
    split; [simpl; lia|by constructor].
Qed.

Lemma extract_pdf_runs (b : bytes) (lang : str) (dpi : Z) (s : State E) :
  match convert_from_bytes E b dpi (world s) with
  | (inl msg, w) =>
      extract_text_from_pdf_bytes b lang dpi s
      = (inl (RuntimeError (lit "PDF conversion failed: " ++ msg)),
         mkState w (trace s ++ [EvRasterize b dpi]))
  | (inr images, _) =>
      ∃ texts w evs,
        extract_text_from_pdf_bytes b lang dpi s
        = (inr texts, mkState w (trace s ++ EvRasterize b dpi :: evs))
        ∧ length texts = length images
        ∧ Forall solid texts
        ∧ Forall (pdf_call b dpi lang) evs
        ∧ length (recognitions evs) = length images
  end.
Proof.
  unfold extract_text_from_pdf_bytes. py_unfold.
  destruct (convert_from_bytes E b dpi (world s)) as [[msg|images] w0] eqn:Hras;
    simpl; [done|].
  rewrite pdf_pages_statuses.
  destruct (pdf_statuses_calls b dpi images lang
              (mkState w0 (trace s ++ [EvRasterize b dpi])))
    as (ps & w & evs & -> & Hc & Hr & Hlen & Hps).
  simpl. rewrite <- app_assoc. simpl.
  eexists _, _, _. split; [reflexivity|].
  split; [by rewrite length_imap|]. split; [|done].
  apply Forall_lookup. intros j t Hj. rewrite list_lookup_imap in Hj.
  destruct (ps !! j) as [p|] eqn:Hp; [|done]. simpl in Hj. injection Hj as <-.
  rewrite Forall_lookup in Hps. by apply (Hps j p Hp).
Qed.

End pdf_calls.

Section pdf_rasterization.
Context {E : Externals}.
Import Ocr Spec.

(** After the rasterisation of the document, the pages are not rasterised
    again. *)
Lemma extract_pdf_rasterizes_once (b : bytes) (lang : str) (dpi : Z) (s : State E)
    (images : list (PILImage E)) (w0 : World E) :
  convert_from_bytes E b dpi (world s) = (inr images, w0) →
  ∃ texts w evs,
    extract_text_from_pdf_bytes b lang dpi s
    = (inr texts, mkState w (trace s ++ EvRasterize b dpi :: evs))
    ∧ rasterizations evs = [].
Proof.
  intros Hras. unfold extract_text_from_pdf_bytes. py_unfold. rewrite Hras. simpl.
  rewrite pdf_pages_statuses.
  destruct (pdf_statuses_runs images lang (mkState w0 (trace s ++ [EvRasterize b dpi])))
    as (ps & w & evs & -> & _ & Hnone).
  simpl. rewrite <- app_assoc. simpl. eexists _, _, _. split; [reflexivity|done].
Qed.

End pdf_rasterization.

(** X10. Once the PDF is rasterised, the extraction does not raise: it
    returns one entry per page, none of them empty and none with
    whitespace at its ends, after one call of the engine per page, in the
    language given and with the settings [--oem 3 --psm 3]; it decodes no
    image file, reads no upload and rasterises nothing after the one
    rasterisation of the document. *)
Theorem pdf_entries (E : Externals) (b : bytes) (lang : str) (dpi : Z) (s : State E)
    (images : list (PILImage E)) (w0 : World E) :
  convert_from_bytes E b dpi (world s) = (inr images, w0) →
  ∃ texts w evs,
    Ocr.extract_text_from_pdf_bytes b lang dpi s
    = (inr texts, mkState w (trace s ++ EvRasterize b dpi :: evs))
    ∧ length texts = length images
    ∧ Forall (λ t, t ≠ [] ∧ trimmed t = true) texts
    ∧ Forall (Calls.pdf_call b dpi lang) evs
    ∧ length (Spec.recognitions evs) = length images
    ∧ Spec.rasterizations evs = [].
Proof.
  intros Hras. pose proof (extract_pdf_runs b lang dpi s) as H.
  rewrite Hras in H.
  destruct H as (texts & w & evs & Hrun & Hlen & Hsolid & Hcalls & Hrec).
  destruct (extract_pdf_rasterizes_once b lang dpi s images w0 Hras)
    as (texts' & w' & evs' & Hrun' & Hnone).
  rewrite Hrun in Hrun'. injection Hrun' as _ _ Hevs.
  apply app_inv_head in Hevs. injection Hevs as <-.
  exists texts, w, evs. done.
Qed.

Lemma pdf_entries_witness :
  let s := Sim.start [inr (lit " Visa "); inr [LF]; inl (lit "engine timeout")] false in
  ∃ texts s',
    Ocr.extract_text_from_pdf_bytes (E := Sim.env) (Sim.data "abc") (lit "eng") 300 s
    = (inr texts, s')
    ∧ length texts = 3
    ∧ Forall (λ t, t ≠ [] ∧ trimmed t = true) texts.
Proof.
  intros s.
  destruct (pdf_entries Sim.env (Sim.data "abc") (lit "eng") 300 s
              (imap (λ n _, Sim.Page n (Sim.data "abc")) (Sim.data "abc")) (world s))
    as (texts & w & evs & Hrun & Hlen & Hsolid & _).
  - reflexivity.
  - exists texts, (mkState w (trace s ++ EvRasterize (Sim.data "abc") 300 :: evs)).
    done.
Defined.

(** ** The single extraction *)

Section single_runs.
Context {E : Externals}.
Import Ocr Spec Calls Main Answers.

Lemma image_is_not_pdf : lit "image" ≠ lit "pdf".
Proof. intros H. vm_compute in H. discriminate H. Qed.

(** The extraction of a file classified as an image. *)
Lemma extract_text_image (file : UploadFile) (language : str) (dpi : Z) (s : State E) :
  validate_file_type (E := E) (filename file) = inr (lit "image") →
  content file ≠ [] →
  extract_text file language dpi s
  = match extract_text_from_image_bytes (content file) language (after_read file s) with
    | (inr [], s2) => (inr (no_text_response (lit "image") file), s2)
    | (inr t, s2) => (inr (text_response t (lit "image") file language), s2)
    | (inl e, s2) =>
        (inl (HTTPException 400 (lit "Invalid image file: " ++ str_exn E e)), s2)
    end.
Proof.
  intros Hval Hne. unfold extract_text, read, after_read. py_unfold.
  rewrite Hval. simpl. destruct (content file) as [|b0 bs] eqn:Hb; [done|].
  rewrite bool_decide_eq_true_2 by done.
  destruct (extract_text_from_image_bytes (b0 :: bs) language _) as [[e|t] s2] eqn:Hrun;
    [done|].
  pose proof (extract_image_trimmed _ _ _ _ _ Hrun) as Ht.
  rewrite (strip_trimmed t Ht). by destruct t.
Qed.

(** The extraction of a file classified as a PDF. *)
Lemma extract_text_pdf (file : UploadFile) (language : str) (dpi : Z) (s : State E) :
  validate_file_type (E := E) (filename file) = inr (lit "pdf") →
  content file ≠ [] →
  extract_text file language dpi s
  = match extract_text_from_pdf_bytes (content file) language dpi (after_read file s) with
    | (inr [], s2) => (inr (no_text_response (lit "pdf") file), s2)
    | (inr texts, s2) =>
        (inr (text_response (join_pages texts) (lit "pdf") file language), s2)
    | (inl e, s2) =>
        (inl (HTTPException 400 (lit "Invalid PDF file: " ++ str_exn E e)), s2)
    end.
Proof.
  intros Hval Hne. unfold extract_text, read, after_read. py_unfold.
  rewrite Hval. simpl. destruct (content file) as [|b0 bs] eqn:Hb; [done|].
  rewrite bool_decide_eq_false_2 by (intros H; symmetry in H; by apply image_is_not_pdf).
  rewrite bool_decide_eq_true_2 by done.
  destruct (extract_text_from_pdf_bytes (b0 :: bs) language dpi _) as [[e|texts] s2];
    [done|].
  destruct texts as [|t texts]; [done|].
  destruct (join_pages_head t texts) as [r Hr]. rewrite Hr.
  rewrite (bool_decide_eq_false_2 (45%N :: r = [])) by done.
  rewrite (bool_decide_eq_false_2 (strip (45%N :: r) = [])) by (by apply strip_nonempty).
  done.
Qed.

Lemma extract_text_refused (file : UploadFile) (language : str) (dpi : Z)
    (s : State E) (e : exn) :
  validate_file_type (E := E) (filename file) = inl e →
  extract_text file language dpi s = (inl e, s).
Proof.
  intros Hval. unfold extract_text. py_unfold. rewrite Hval.
  by destruct (validate_file_type_raises _ _ Hval) as [detail ->].
Qed.

Lemma extract_text_empty (file : UploadFile) (language : str) (dpi : Z)
    (s : State E) (kind : str) :
  validate_file_type (E := E) (filename file) = inr kind →
  content file = [] →
  extract_text file language dpi s
  = (inl (HTTPException 400 (lit "Empty file")), after_read file s).
Proof.
  intros Hval Hempty. unfold extract_text, read, after_read. py_unfold.
  rewrite Hval. simpl. by rewrite Hempty.
Qed.

(** The four ways through [extract_text]. *)
Lemma extract_text_cases (file : UploadFile) (language : str) (dpi : Z) (s : State E) :
  (∃ e, validate_file_type (E := E) (filename file) = inl e)
  ∨ (∃ kind, validate_file_type (E := E) (filename file) = inr kind ∧ content file = [])
  ∨ (validate_file_type (E := E) (filename file) = inr (lit "image") ∧ content file ≠ [])
  ∨ (validate_file_type (E := E) (filename file) = inr (lit "pdf") ∧ content file ≠ []).
Proof.
  pose proof (validate_file_type_values E (filename file)) as Hv.
  destruct (validate_file_type (filename file)) as [e|kind]; [eauto|].
  destruct (content file); [eauto|].
  destruct Hv as [->| ->]; eauto 6.
Qed.

End single_runs.

Section single_facts.
Context {E : Externals}.
Import Ocr Spec Calls Main Answers.

Lemma join_pages_trimmed (texts : list str) :
  Forall solid texts → trimmed (join_pages texts) = true.
Proof.
  intros Hsolid. unfold trimmed. apply andb_true_iff. split.
  - destruct texts as [|t texts]; [done|].
    destruct (join_pages_head t texts) as [r ->]. done.
  - destruct texts as [|t texts _] using rev_ind; [done|].
    unfold join_pages. rewrite imap_app. simpl.
    apply Forall_app in Hsolid as [_ Hlast]. apply Forall_cons in Hlast as [[Hne Ht] _].
    rewrite last_join.
    + destruct t as [|c0 t]; [done|].
      rewrite !app_assoc, last_app. simpl app. rewrite last_cons_cons.
      unfold trimmed in Ht. apply andb_true_iff in Ht as [_ Ht].
      revert Ht. destruct (last (c0 :: t)) as [c|] eqn:Hl; intros Ht; [exact Ht|].
      by apply last_None in Hl.
    + apply Forall_app. split.
      * apply Forall_lookup. intros j x Hj. rewrite list_lookup_imap in Hj.
        apply fmap_Some in Hj as (t0 & _ & ->).
        intros H. apply app_eq_nil in H as [H _]. vm_compute in H. discriminate H.
      * constructor; [|constructor].
        intros H. apply app_eq_nil in H as [H _]. vm_compute in H. discriminate H.
Qed.

Lemma extract_text_error_400 (file : UploadFile) (language : str) (dpi : Z)
    (s s' : State E) (e : exn) :
  extract_text file language dpi s = (inl e, s') →
  ∃ detail, e = HTTPException 400 detail.
Proof.
  destruct (extract_text_cases file language dpi s)
    as [[e0 Hv]|[(kind & Hv & Hc)|[[Hv Hc]|[Hv Hc]]]].
  - rewrite (extract_text_refused _ _ _ _ _ Hv). intros [= <- _].
    by apply validate_file_type_raises in Hv.
  - rewrite (extract_text_empty _ _ _ _ _ Hv Hc). intros [= <- _]. eauto.
  - rewrite (extract_text_image _ _ _ _ Hv Hc).
    destruct (extract_text_from_image_bytes _ _ _) as [[e1|[|c t]] s2];
      intros [= <- _]; eauto.
  - rewrite (extract_text_pdf _ _ _ _ Hv Hc).
    destruct (extract_text_from_pdf_bytes _ _ _ _) as [[e1|[|t ts]] s2];
      intros [= <- _]; eauto.
Qed.

Lemma extract_text_response (file : UploadFile) (language : str) (dpi : Z)
    (s s' : State E) (resp : Response) :
  extract_text file language dpi s = (inr resp, s') →
  ∃ kind, (kind = lit "image" ∨ kind = lit "pdf")
    ∧ (resp = no_text_response kind file
       ∨ ∃ text, resp = text_response text kind file language
                 ∧ text ≠ [] ∧ trimmed text = true).
Proof.
  destruct (extract_text_cases file language dpi s)
    as [[e0 Hv]|[(kind & Hv & Hc)|[[Hv Hc]|[Hv Hc]]]].
  - by rewrite (extract_text_refused _ _ _ _ _ Hv).
  - by rewrite (extract_text_empty _ _ _ _ _ Hv Hc).
  - rewrite (extract_text_image _ _ _ _ Hv Hc).
    destruct (extract_text_from_image_bytes _ _ _) as [[e1|t] s2] eqn:Hrun; [done|].
    pose proof (extract_image_trimmed _ _ _ _ _ Hrun) as Ht.
    destruct t as [|c t]; intros [= <- _]; exists (lit "image");
      (split; [by left|]); [by left|]. right. eauto.
  - rewrite (extract_text_pdf _ _ _ _ Hv Hc).
    pose proof (extract_pdf_runs (content file) language dpi (after_read file s)) as Hpdf.
    destruct (convert_from_bytes E _ _ _) as [[msg|images] w0].
    + by rewrite Hpdf.
    + destruct Hpdf as (texts & w & evs & -> & _ & Hsolid & _).
      destruct texts as [|t texts]; intros [= <- _]; exists (lit "pdf");
        (split; [by right|]); [by left|]. right.
      exists (join_pages (t :: texts)). split; [done|]. split.
      * by destruct (join_pages_head t texts) as [r ->].
      * by apply join_pages_trimmed.
Qed.

Lemma extract_text_calls (file : UploadFile) (language : str) (dpi : Z) (s : State E) :
  ∃ r w evs,
    extract_text file language dpi s = (r, mkState w (trace s ++ evs))
    ∧ match validate_file_type (E := E) (filename file) with
      | inl _ => evs = []
      | inr kind =>
          ∃ evs', evs = EvRead (filename file) :: evs'
            ∧ if bool_decide (kind = lit "image")
              then Forall (image_call (content file) language) evs'
              else Forall (pdf_call (content file) dpi language) evs'
      end.
Proof.
  destruct (extract_text_cases file language dpi s)
    as [[e0 Hv]|[(kind & Hv & Hc)|[[Hv Hc]|[Hv Hc]]]]; rewrite Hv.
  - rewrite (extract_text_refused _ _ _ _ _ Hv).
    exists (inl e0), (world s), []. rewrite app_nil_r. by destruct s.
  - rewrite (extract_text_empty _ _ _ _ _ Hv Hc). unfold after_read.
    eexists _, _, _. split; [reflexivity|]. exists []. split; [done|].
    by case_bool_decide.
  - rewrite (extract_text_image _ _ _ _ Hv Hc).
    destruct (extract_image_calls (content file) language (after_read file s))
      as (r & w & evs & -> & Hcalls & _).
    unfold after_read. simpl. rewrite <- app_assoc. simpl.
    rewrite bool_decide_eq_true_2 by done.
    destruct r as [e|[|c t]]; eexists _, _, _; (split; [reflexivity|]); eauto.
  - rewrite (extract_text_pdf _ _ _ _ Hv Hc).
    rewrite bool_decide_eq_false_2 by (intros H; symmetry in H; by apply image_is_not_pdf).
    pose proof (extract_pdf_runs (content file) language dpi (after_read file s)) as Hpdf.
    unfold after_read in *. simpl in Hpdf.
    destruct (convert_from_bytes E _ _ _) as [[msg|images] w0].
    + rewrite Hpdf. rewrite <- app_assoc. simpl.
      eexists _, _, _. split; [reflexivity|]. eexists. split; [reflexivity|].
      by repeat constructor.
    + destruct Hpdf as (texts & w & evs & -> & _ & _ & Hcalls & _).
      rewrite <- app_assoc. simpl.
      destruct texts as [|t texts]; eexists _, _, _; (split; [reflexivity|]);
        (eexists; split; [reflexivity|]); by constructor.
Qed.

End single_facts.

(** X11. Whatever makes the single extraction raise (the name of the file,
    an empty file, the decoding, the rasteriser or the engine), it raises
    [HTTPException] with the status 400. *)
Theorem extract_text_raises_400 (E : Externals) (file : Main.UploadFile)
    (language : str) (dpi : Z) (s s' : State E) (e : exn) :
  Main.extract_text file language dpi s = (inl e, s') →
  ∃ detail, e = HTTPException 400 detail.
Proof. apply extract_text_error_400. Qed.

Lemma extract_text_raises_400_witness :
  let s := Sim.start [inl (lit "engine timeout")] false in
  (Main.extract_text (E := Sim.env) (Sim.upload "visa.png" "scan") (lit "eng") 300 s).1
  = inl (HTTPException 400
           (lit "Invalid image file: Image processing failed: engine timeout")).
Proof.
  intros s.
  destruct (extract_text_raises_400 Sim.env (Sim.upload "visa.png" "scan") (lit "eng") 300 s
              (Main.extract_text (E := Sim.env) (Sim.upload "visa.png" "scan")
                 (lit "eng") 300 s).2
              (HTTPException 400
                 (lit "Invalid image file: Image processing failed: engine timeout")))
    as [detail Hd].
  - vm_compute. reflexivity.
  - vm_compute. reflexivity.
Defined.

(** X12. An answer of the single extraction names the file and its kind,
    [image] or [pdf].  It is either the answer without text, or an answer
    whose text is not empty, has no whitespace at its ends, and has the
    length the answer gives, in the language of the request. *)
Theorem extract_text_answer (E : Externals) (file : Main.UploadFile)
    (language : str) (dpi : Z) (s s' : State E) (resp : Main.Response) :
  Main.extract_text file language dpi s = (inr resp, s') →
  ∃ kind, (kind = lit "image" ∨ kind = lit "pdf")
    ∧ (resp = Main.NoTextResponse [] (lit "No text could be extracted from the document")
                kind (Main.filename file)
       ∨ ∃ text, resp = Main.TextResponse text kind (Main.filename file)
                          (length text) language
                 ∧ text ≠ [] ∧ trimmed text = true).
Proof. apply extract_text_response. Qed.

Lemma extract_text_answer_witness :
  let s := Sim.start [inr (lit "  Visa   No 7 ")] false in
  (Main.extract_text (E := Sim.env) (Sim.upload "visa.png" "scan") (lit "eng") 300 s).1
  = inr (Main.TextResponse (lit "Visa No 7") (lit "image") (lit "visa.png") 9 (lit "eng")).
Proof.
  intros s.
  destruct (extract_text_answer Sim.env (Sim.upload "visa.png" "scan") (lit "eng") 300 s
              (Main.extract_text (E := Sim.env) (Sim.upload "visa.png" "scan")
                 (lit "eng") 300 s).2
              (Main.TextResponse (lit "Visa No 7") (lit "image") (lit "visa.png") 9
                 (lit "eng")))
    as (kind & _ & _).
  - vm_compute. reflexivity.
  - vm_compute. reflexivity.
Defined.

(** X13. The single extraction reads the upload once when the name of the
    file is accepted, and not at all when it is refused.  After the read,
    the calls are those of the kind of the file: for an image, decodings of
    its bytes and calls of the engine in the language of the request, and
    no rasterisation; for a PDF, rasterisation of its bytes at the
    resolution of the request and calls of the engine in that language, and
    no decoding. *)
Theorem extract_text_call_discipline (E : Externals) (file : Main.UploadFile)
    (language : str) (dpi : Z) (s : State E) :
  ∃ r w evs,
    Main.extract_text file language dpi s = (r, mkState w (trace s ++ evs))
    ∧ match Main.validate_file_type (E := E) (Main.filename file) with
      | inl _ => evs = []
      | inr kind =>
          ∃ evs', evs = EvRead (Main.filename file) :: evs'
            ∧ if bool_decide (kind = lit "image")
              then Forall (Calls.image_call (Main.content file) language) evs'
              else Forall (Calls.pdf_call (Main.content file) dpi language) evs'
      end.
Proof. apply extract_text_calls. Qed.

(** X14. A PDF that has a page never gets the answer without text, even
    when no page has any text: its answer carries the marker lines and the
    entries of the pages.  The answer without text is given exactly when
    the rasteriser returns no page. *)
Theorem pdf_answer_has_text (E : Externals) (file : Main.UploadFile)
    (language : str) (dpi : Z) (s : State E) (images : list (PILImage E)) (w0 : World E) :
  Main.validate_file_type (E := E) (Main.filename file) = inr (lit "pdf") →
  Main.content file ≠ [] →
  convert_from_bytes E (Main.content file) dpi (world s) = (inr images, w0) →
  ∃ resp s',
    Main.extract_text file language dpi s = (inr resp, s')
    ∧ match images with
      | [] => resp = Main.NoTextResponse []
                       (lit "No text could be extracted from the document")
                       (lit "pdf") (Main.filename file)
      | _ => ∃ text, resp = Main.TextResponse text (lit "pdf") (Main.filename file)
                              (length text) language
                     ∧ text ≠ []
      end.
Proof.
  intros Hv Hc Hras. rewrite (extract_text_pdf _ _ _ _ Hv Hc).
  pose proof (extract_pdf_runs (Main.content file) language dpi
                (Answers.after_read file s)) as Hpdf.
  simpl in Hpdf. rewrite Hras in Hpdf.
  destruct Hpdf as (texts & w & evs & -> & Hlen & _).
  destruct images as [|img images]; destruct texts as [|t texts]; try done.
  - eexists _, _. split; reflexivity.
  - eexists _, _. split; [reflexivity|]. eexists. split; [reflexivity|].
    by destruct (join_pages_head t texts) as [r ->].
Qed.

Lemma pdf_answer_has_text_witness :
  let s := Sim.start [inr [LF]] false in
  ∃ text,
    (Main.extract_text (E := Sim.env) (Sim.upload "visa.pdf" "x") (lit "eng") 300 s).1
    = inr (Main.TextResponse text (lit "pdf") (lit "visa.pdf") (length text) (lit "eng"))
    ∧ text ≠ [].
Proof.
  intros s.
  destruct (pdf_answer_has_text Sim.env (Sim.upload "visa.pdf" "x") (lit "eng") 300 s
              [Sim.Page 0 (Sim.data "x")] (world s))
    as (resp & s' & Hrun & text & -> & Hne).
  - vm_compute. reflexivity.
  - discriminate.
  - reflexivity.
  - exists text. split; [by rewrite Hrun|done].
Defined.

(** X15. When the extraction of an image file raises, the detail of the
    error names the error of the first attempt, behind the prefixes of the
    two handlers it went through. *)
Theorem image_failure_detail (E : Externals) (file : Main.UploadFile)
    (language : str) (dpi : Z) (s s2 : State E) (e : exn) :
  Main.validate_file_type (E := E) (Main.filename file) = inr (lit "image") →
  Main.content file ≠ [] →
  Ocr.extract_text_from_image_bytes (Main.content file) language
    (Answers.after_read file s) = (inl e, s2) →
  ∃ e0 s1,
    Ocr.image_first_attempt (Main.content file) language (Answers.after_read file s)
    = (inl e0, s1)
    ∧ Main.extract_text file language dpi s
      = (inl (HTTPException 400
                (lit "Invalid image file: " ++ lit "Image processing failed: "
                 ++ str_exn E e0)), s2).
Proof.
  intros Hv Hc Hrun. rewrite (extract_text_image _ _ _ _ Hv Hc), Hrun.
  destruct (extract_image_error _ _ _ _ _ Hrun) as (e0 & s1 & H1 & ->).
  exists e0, s1. done.
Qed.

Lemma image_failure_detail_witness :
  let s := Sim.start [] false in
  (Main.extract_text (E := Sim.env) (Sim.upload "visa.png" "scan") (lit "eng") 300 s).1
  = inl (HTTPException 400
           (lit "Invalid image file: Image processing failed: tesseract is not installed")).
Proof.
  intros s.
  destruct (image_failure_detail Sim.env (Sim.upload "visa.png" "scan") (lit "eng") 300 s
              (Ocr.extract_text_from_image_bytes (E := Sim.env) (Sim.data "scan") (lit "eng")
                 (Answers.after_read (Sim.upload "visa.png" "scan") s)).2
              (RuntimeError (lit "Image processing failed: tesseract is not installed")))
    as (e0 & s1 & H1 & Hrun).
  - vm_compute. reflexivity.
  - discriminate.
  - vm_compute. reflexivity.
  - rewrite Hrun. simpl. vm_compute in H1. injection H1 as <- _.
    vm_compute. reflexivity.
Defined.

(** X16. When the rasteriser raises on a PDF file, the single extraction
    raises the status 400 with the message of the rasteriser behind the
    prefixes of the two handlers it went through; the upload was read, the
    rasteriser was called once, and the engine was not called. *)
Theorem pdf_rasterization_failure (E : Externals) (file : Main.UploadFile)
    (language : str) (dpi : Z) (s : State E) (msg : str) (w : World E) :
  Main.validate_file_type (E := E) (Main.filename file) = inr (lit "pdf") →
  Main.content file ≠ [] →
  convert_from_bytes E (Main.content file) dpi (world s) = (inl msg, w) →
  Main.extract_text file language dpi s
  = (inl (HTTPException 400
            (lit "Invalid PDF file: " ++ lit "PDF conversion failed: " ++ msg)),
     mkState w (trace s ++ [EvRead (Main.filename file);
                            EvRasterize (Main.content file) dpi])).
Proof.
  intros Hv Hc Hras. rewrite (extract_text_pdf _ _ _ _ Hv Hc).
  pose proof (extract_pdf_runs (Main.content file) language dpi
                (Answers.after_read file s)) as Hpdf.
  simpl in Hpdf. rewrite Hras in Hpdf. rewrite Hpdf. simpl.
  by rewrite <- app_assoc.
Qed.

Lemma pdf_rasterization_failure_witness :
  let file := {| Main.filename := lit "visa.pdf"; Main.content := [Byte.x25] |} in
  let broken := {| World := unit; PILImage := unit; Enhancer := unit;
                   Image_open := λ _ w, (inl [], w);
                   Image_mode := λ _, [];
                   Image_convert := λ _ _ w, (inl [], w);
                   ImageEnhance_Contrast := λ _ w, (inl [], w);
                   Enhancer_enhance := λ _ _ w, (inl [], w);
                   Image_filter := λ _ _ w, (inl [], w);
                   image_to_string := λ _ _ _ w, (inl [], w);
                   convert_from_bytes := λ _ _ w, (inl (lit "Unable to get page count"), w);
                   str_HTTPException := λ _ d, d;
                   SUPPORTED_TYPES_order := [] |} in
  (Main.extract_text (E := broken) file (lit "eng") 300 (mkState (E := broken) tt [])).1
  = inl (HTTPException 400
           (lit "Invalid PDF file: " ++ lit "PDF conversion failed: "
            ++ lit "Unable to get page count")).
Proof.
  intros file broken.
  rewrite (pdf_rasterization_failure broken file (lit "eng") 300
             (mkState (E := broken) tt []) (lit "Unable to get page count") tt).
  - reflexivity.
  - vm_compute. reflexivity.
  - discriminate.
  - reflexivity.
Defined.

(** ** The calls and the entries of a batch *)

Section batch_calls.
Context {E : Externals}.
Import Ocr Spec Calls Main Answers Batch.

Lemma image_call_batch (b : bytes) (lang : str) (evs : list (Event E)) :
  Forall (image_call b lang) evs → Forall (batch_call lang) evs.
Proof. intros H. eapply Forall_impl; [exact H|]. by intros []. Qed.

Lemma pdf_call_batch (b : bytes) (lang : str) (evs : list (Event E)) :
  Forall (pdf_call b 300 lang) evs → Forall (batch_call lang) evs.
Proof. intros H. eapply Forall_impl; [exact H|]. intros []; simpl; tauto. Qed.

Lemma batch_call_no_read (lang : str) (evs : list (Event E)) :
  Forall (batch_call lang) evs → reads evs = [].
Proof. intros H. unfold reads. apply (filter_none _ _ _ H). by intros []. Qed.

Lemma process_file_calls (file : UploadFile) (language : str) (s : State E) :
  ∃ r w evs,
    process_file file language s
    = (r, mkState w (trace s ++ EvRead (filename file) :: evs))
    ∧ Forall (batch_call language) evs
    ∧ match r with
      | inr (kind, text) =>
          (kind = lit "image" ∨ kind = lit "pdf") ∧ trimmed text = true
      | inl _ => True
      end.
Proof.
  unfold process_file, read. py_unfold. simpl.
  pose proof (validate_file_type_values E (filename file)) as Hv.
  destruct (validate_file_type (filename file)) as [e|kind]; simpl.
  { eexists _, _, []. split; [reflexivity|]. by split. }
  destruct Hv as [-> | ->].
  - rewrite bool_decide_eq_true_2 by done.
    destruct (extract_image_calls (content file) language
                (mkState (world s) (trace s ++ [EvRead (filename file)])))
      as (r & w & evs & Hrun & Hcalls & _).
    rewrite Hrun. simpl. rewrite <- app_assoc. simpl.
    destruct r as [e|t]; eexists _, _, _; (split; [reflexivity|]);
      (split; [by eapply image_call_batch|]); [done|].
    split; [by left|]. by eapply extract_image_trimmed.
  - rewrite bool_decide_eq_false_2 by (intros H; symmetry in H; by apply image_is_not_pdf).
    rewrite bool_decide_eq_true_2 by done.
    pose proof (extract_pdf_runs (content file) language 300
                  (mkState (world s) (trace s ++ [EvRead (filename file)]))) as Hpdf.
    simpl in Hpdf.
    destruct (convert_from_bytes E (content file) 300 (world s)) as [[msg|images] w0].
    + rewrite Hpdf. simpl. rewrite <- app_assoc. simpl.
      eexists _, _, _. split; [reflexivity|]. split; [|done].
      constructor; [done|constructor].
    + destruct Hpdf as (texts & w & evs & -> & _ & Hsolid & Hcalls & _).
      simpl. rewrite <- app_assoc. simpl.
      eexists _, _, _. split; [reflexivity|].
      split; [constructor; [done|by eapply pdf_call_batch]|].
      split; [by right|]. by apply join_pages_trimmed.
Qed.

Lemma batch_item_calls (file : UploadFile) (language : str) (s : State E) :
  ∃ item w evs,
    batch_item file language s
    = (item, mkState w (trace s ++ EvRead (filename file) :: evs))
    ∧ Forall (batch_call language) evs
    ∧ item_shape item.
Proof.
  unfold batch_item.
  destruct (process_file_calls file language s) as (r & w & evs & -> & Hcalls & Hr).
  destruct r as [e|[kind text]]; eexists _, _, _; (split; [reflexivity|]);
    (split; [done|]).
  - right. simpl. eauto.
  - left. simpl. destruct Hr as [Hk Ht]. done.
Qed.

Lemma batch_items_calls (files : list UploadFile) (language : str) (s : State E) :
  ∃ items w evs,
    batch_items files language s = (items, mkState w (trace s ++ evs))
    ∧ reads evs = (λ file, EvRead (filename file)) <$> files
    ∧ Forall (λ ev, is_read ev = true ∨ batch_call language ev) evs
    ∧ Forall item_shape items.
Proof.
  revert s. induction files as [|file files IH]; intros s; simpl.
  - exists [], (world s), []. rewrite app_nil_r. destruct s. by repeat split.
  - destruct (batch_item_calls file language s) as (item & w1 & evs1 & -> & Hc1 & Hs1).
    destruct (IH (mkState w1 (trace s ++ EvRead (filename file) :: evs1)))
      as (items & w2 & evs2 & -> & Hr2 & Hc2 & Hs2).
    simpl. rewrite <- app_assoc. simpl.
    eexists _, _, _. split; [reflexivity|]. split; [|split].
    + unfold reads in *. rewrite filter_cons_True by done.
      rewrite filter_app. fold (reads evs1). rewrite (batch_call_no_read _ _ Hc1).
      simpl. by rewrite Hr2.
    + constructor; [by left|]. apply Forall_app. split; [|done].
      eapply Forall_impl; [exact Hc1|]. by right.
    + by constructor.
Qed.

Lemma batch_runs (files : list UploadFile) (language : str) (s : State E) :
  files ≠ [] → length files ≤ 10 →
  ∃ r w evs,
    extract_text_batch files language s = (inr r, mkState w (trace s ++ evs))
    ∧ reads evs = (λ file, EvRead (filename file)) <$> files
    ∧ Forall (λ ev, is_read ev = true ∨ batch_call language ev) evs
    ∧ Forall item_shape (results r).
Proof.
  intros Hne Hlen. unfold extract_text_batch. py_unfold.
  destruct files as [|f0 files0] eqn:Hfiles; [done|]. rewrite <- Hfiles in *.
  destruct (10 <? length files) eqn:Hlim; [apply Nat.ltb_lt in Hlim; lia|].
  rewrite batch_files_items.
  destruct (batch_items_calls files language s) as (items & w & evs & -> & Hr & Hc & Hs).
  simpl. eexists _, _, _. split; [reflexivity|]. done.
Qed.

End batch_calls.

(** C8, as the service does it.  The limit of a batch is ten files,
    whatever limit the configuration holds.  A batch of more files than the
    configured limit, and of ten at most, is not refused: every file is
    read and processed and the batch gets its result, one entry per file.
    A batch of more than ten files is refused before any file is read, the
    state of the world and the record of the calls being what they were;
    the error raised for it is caught by the handler of the function and
    comes out with the status 500. *)
Theorem batch_limit_is_not_configured (E : Externals) (int : str → exn + Z)
    (getenv : str → option str) (limit : Z) (files : list Main.UploadFile)
    (language : str) (s : State E) :
  Config.BATCH_SIZE_LIMIT int getenv = inr limit →
  (limit < Z.of_nat (length files))%Z →
  files ≠ [] →
  (length files ≤ 10 →
     ∃ r w evs,
       Main.extract_text_batch files language s = (inr r, mkState w (trace s ++ evs))
       ∧ Main.total_files r = length files
       ∧ length (Main.results r) = length files
       ∧ Calls.reads evs = (λ file, EvRead (Main.filename file)) <$> files)
  ∧ (10 < length files →
     Main.extract_text_batch files language s
     = (inl (HTTPException 500
               (lit "Batch processing failed: "
                ++ str_exn E (HTTPException 400
                                (lit "Maximum 10 files allowed per batch")))),
        s)).
Proof.
  intros _ _ Hne. unfold Main.extract_text_batch. py_unfold.
  destruct files as [|f0 files0] eqn:Hfiles; [done|]. rewrite <- Hfiles in *.
  split; intros Hlen.
  - destruct (10 <? length files) eqn:Hlim; [apply Nat.ltb_lt in Hlim; lia|].
    rewrite batch_files_items.
    pose proof (batch_items_length files language s) as Hitems.
    destruct (batch_items_calls files language s) as (items & w & evs & Hrun & Hr & _).
    rewrite Hrun in *. simpl in *. eexists _, _, _. split; [reflexivity|]. done.
  - apply Nat.ltb_lt in Hlen. by rewrite Hlen.
Qed.

Lemma batch_limit_is_not_configured_witness :
  let files := replicate 6 (Sim.upload "a.png" "xyz") in
  let s := Sim.start [inr (lit "Visa")] false in
  Config.BATCH_SIZE_LIMIT Sim2.int (Sim2.getenv "5") = inr 5%Z
  ∧ ∃ r w evs,
      Main.extract_text_batch (E := Sim.env) files (lit "eng") s
      = (inr r, mkState w (trace s ++ evs))
      ∧ Main.total_files r = 6
      ∧ length (Main.results r) = 6
      ∧ Calls.reads evs = replicate 6 (EvRead (lit "a.png")).
Proof.
  intros files s. split; [vm_compute; reflexivity|].
  destruct (batch_limit_is_not_configured Sim.env Sim2.int (Sim2.getenv "5") 5 files
              (lit "eng") s) as [H _].
  - vm_compute. reflexivity.
  - simpl. lia.
  - discriminate.
  - destruct H as (r & w & evs & Hrun & Htotal & Hlen & Hreads); [simpl; lia|].
    exists r, w, evs. split; [exact Hrun|]. split; [exact Htotal|].
    split; [exact Hlen|exact Hreads].
Defined.

(** X17. A batch of one to ten files reads every file once, in the order
    of the files, whether the file is processed or refused. *)
Theorem batch_reads_each_file_once (E : Externals) (files : list Main.UploadFile)
    (language : str) (s : State E) :
  files ≠ [] → length files ≤ 10 →
  ∃ r w evs,
    Main.extract_text_batch files language s = (inr r, mkState w (trace s ++ evs))
    ∧ Calls.reads evs = (λ file, EvRead (Main.filename file)) <$> files.
Proof.
  intros Hne Hlen.
  destruct (batch_runs files language s Hne Hlen) as (r & w & evs & Hrun & Hr & _).
  eauto.
Qed.

Lemma batch_reads_each_file_once_witness :
  let files := [Sim.upload "a.png" "xyz"; Sim.upload "notes.txt" "abc";
                Sim.upload "c.pdf" "q"] in
  let s := Sim.start [inr (lit "Visa")] false in
  ∃ r w evs,
    Main.extract_text_batch (E := Sim.env) files (lit "eng") s
    = (inr r, mkState w (trace s ++ evs))
    ∧ Calls.reads evs = [EvRead (lit "a.png"); EvRead (lit "notes.txt"); EvRead (lit "c.pdf")].
Proof.
  intros files s.
  destruct (batch_reads_each_file_once Sim.env files (lit "eng") s)
    as (r & w & evs & Hrun & Hr).
  - discriminate.
  - simpl. lia.
  - exists r, w, evs. split; [done|]. rewrite Hr. reflexivity.
Defined.

(** X18. In a batch of one to ten files every PDF is rasterised at 300
    dpi, and every call of the engine is in the language of the batch with
    the settings [--oem 3 --psm 3]. *)
Theorem batch_resolution_and_language (E : Externals) (files : list Main.UploadFile)
    (language : str) (s : State E) :
  files ≠ [] → length files ≤ 10 →
  ∃ r w evs,
    Main.extract_text_batch files language s = (inr r, mkState w (trace s ++ evs))
    ∧ Forall (λ ev, match ev with
                    | EvRasterize _ dpi => dpi = 300%Z
                    | EvRecognize _ lang config => lang = language ∧ config = Ocr.config
                    | _ => True
                    end) evs.
Proof.
  intros Hne Hlen.
  destruct (batch_runs files language s Hne Hlen) as (r & w & evs & Hrun & _ & Hc & _).
  exists r, w, evs. split; [done|].
  eapply Forall_impl; [exact Hc|]. intros [] [H|H]; try done.
Qed.

Lemma batch_resolution_and_language_witness :
  let files := [Sim.upload "c.pdf" "q"] in
  let s := Sim.start [inr (lit "Visa")] false in
  ∃ r w evs,
    Main.extract_text_batch (E := Sim.env) files (lit "ara") s
    = (inr r, mkState w (trace s ++ evs))
    ∧ Forall (λ ev, match ev with
                    | EvRasterize _ dpi => dpi = 300%Z
                    | EvRecognize _ lang config => lang = lit "ara" ∧ config = Ocr.config
                    | _ => True
                    end) evs.
Proof.
  intros files s.
  apply (batch_resolution_and_language Sim.env files (lit "ara") s).
  - discriminate.
  - simpl. lia.
Defined.

(** X19. Every entry of the result of a batch has one of two shapes: the
    status [success] with the kind [image] or [pdf], a text without
    whitespace at its ends, the length of that text and no error message;
    or the status [error] with an error message and no length. *)
Theorem batch_entry_shapes (E : Externals) (files : list Main.UploadFile)
    (language : str) (s s' : State E) (r : Main.BatchResponse) :
  Main.extract_text_batch files language s = (inr r, s') →
  Forall Batch.item_shape (Main.results r).
Proof.
  unfold Main.extract_text_batch. py_unfold.
  destruct files as [|f0 files0] eqn:Hfiles; [done|]. rewrite <- Hfiles.
  destruct (10 <? length files); [done|].
  rewrite batch_files_items. simpl. intros [= <- _]. simpl.
  destruct (batch_items_calls files language s) as (items & w & evs & -> & _ & _ & H).
  done.
Qed.

Lemma batch_entry_shapes_witness :
  let files := [Sim.upload "a.png" "xyz"; Sim.upload "notes.txt" "abc"] in
  let s := Sim.start [inr (lit " Visa ")] false in
  ∃ r s',
    Main.extract_text_batch (E := Sim.env) files (lit "eng") s = (inr r, s')
    ∧ Forall Batch.item_shape (Main.results r).
Proof.
  intros files s. eexists _, _. split; [vm_compute; reflexivity|].
  eapply batch_entry_shapes
    with (E := Sim.env) (files := files) (language := lit "eng") (s := s).
  vm_compute. reflexivity.
Defined.

(** ** The helpers of app/main.py *)

Section tesseract_path.
Import Helpers.

Lemma first_existing_spec (exists_ : str → bool) (paths : list str) :
  match first_existing exists_ paths with
  | Some p => ∃ before after,
                paths = before ++ p :: after
                ∧ exists_ p = true
                ∧ Forall (λ q, exists_ q = false) before
  | None => Forall (λ q, exists_ q = false) paths
  end.
Proof.
  induction paths as [|path paths IH]; simpl; [constructor|].
  destruct (exists_ path) eqn:Hp.
  - exists [], paths. by repeat split.
  - destruct (first_existing exists_ paths) as [p|].
    + destruct IH as (before & after & -> & Hex & Hno).
      exists (path :: before), after. split; [done|]. split; [done|by constructor].
    + by constructor.
Qed.

End tesseract_path.

(** X20. [get_tesseract_path] returns the first of its three paths at
    which a file exists; when there is a file at none of them it returns
    [tesseract], to be looked up by the system. *)
Theorem tesseract_path_is_first_existing (exists_ : str → bool) :
  let p := Helpers.get_tesseract_path exists_ in
  (∃ before after,
      Helpers.tesseract_paths = before ++ p :: after
      ∧ exists_ p = true
      ∧ Forall (λ q, exists_ q = false) before)
  ∨ (p = lit "tesseract" ∧ Forall (λ q, exists_ q = false) Helpers.tesseract_paths).
Proof.
  unfold Helpers.get_tesseract_path.
  pose proof (first_existing_spec exists_ Helpers.tesseract_paths) as H.
  destruct (Helpers.first_existing exists_ Helpers.tesseract_paths) as [p|]; simpl.
  - by left.
  - by right.
Qed.

(** X21. When the module is loaded, the command of the engine is set
    only to a path at which a file exists, and it is the path
    [get_tesseract_path] returns; it is left alone only when there is no
    file at any of the three paths, nor at the relative path [tesseract]. *)
Theorem tesseract_cmd_exists (exists_ : str → bool) :
  match Helpers.tesseract_cmd exists_ with
  | Some p => exists_ p = true ∧ p = Helpers.get_tesseract_path exists_
  | None => Forall (λ q, exists_ q = false) (lit "tesseract" :: Helpers.tesseract_paths)
  end.
Proof.
  unfold Helpers.tesseract_cmd.
  destruct (exists_ (Helpers.get_tesseract_path exists_)) eqn:Hex; [done|].
  unfold Helpers.get_tesseract_path in Hex.
  pose proof (first_existing_spec exists_ Helpers.tesseract_paths) as H.
  destruct (Helpers.first_existing exists_ Helpers.tesseract_paths) as [p|]; simpl in Hex.
  - destruct H as (_ & _ & _ & Hp & _). congruence.
  - by constructor.
Qed.

Section helpers.
Context {B : Helpers.Backend}.
Import Helpers.

Ltac r_unfold := unfold mbind, mret, R_bind, R_ret, catch, throw, lib.

Lemma helper_image_runs (image : PILImage (base B)) (w : World (base B)) :
  match image_to_string_config B image custom_config w with
  | (inr raw, w') => extract_text_from_image image w = (inr (normalize raw), w')
  | (inl msg, w') =>
      extract_text_from_image image w
      = (inl (HTTPException 500 (lit "Failed to extract text from image: " ++ msg)), w')
  end.
Proof.
  unfold extract_text_from_image. r_unfold.
  by destruct (image_to_string_config B image custom_config w) as [[msg|raw] w'].
Qed.

Lemma pdf_loop_app (pre rest : list (PILImage (base B))) :
  ∀ (i : nat) (acc : list str) (w : World (base B)),
    pdf_loop i (pre ++ rest) acc w
    = match pdf_loop i pre acc w with
      | (inr acc', w') => pdf_loop (i + length pre) rest acc' w'
      | (inl e, w') => (inl e, w')
      end.
Proof.
  induction pre as [|image pre IH]; intros i acc w; simpl.
  - unfold mret, R_ret. by rewrite Nat.add_0_r.
  - unfold mbind, R_bind.
    destruct (extract_text_from_image image w) as [[e|t] w']; [done|].
    replace (i + S (length pre)) with (S i + length pre) by lia.
    destruct t; apply IH.
Qed.

End helpers.

(** X22. The helper on one image returns a trimmed, single-spaced text;
    whatever the engine raises, it raises the status 500 with a detail that
    starts with [Failed to extract text from image: ]. *)
Theorem helper_image_result (B : Helpers.Backend) (image : PILImage (Helpers.base B))
    (w : World (Helpers.base B)) :
  match (Helpers.extract_text_from_image image w).1 with
  | inr text => is_normalized text = true
  | inl e =>
      ∃ msg, e = HTTPException 500 (lit "Failed to extract text from image: " ++ msg)
  end.
Proof.
  pose proof (helper_image_runs image w) as H.
  destruct (Helpers.image_to_string_config B image Helpers.custom_config w)
    as [[msg|raw] w']; rewrite H; simpl; [eauto|apply normalize_is_normalized].
Qed.

Section helper_pages.
Context {B : Helpers.Backend}.
Import Helpers.

Lemma pdf_loop_answers (images : list (PILImage (base B))) :
  ∀ (i : nat) (acc : list str) (w : World (base B)),
    match page_answers images w with
    | Some (raws, w1) =>
        pdf_loop i images acc w
        = (inr (acc ++ (block <$> filter (λ page : nat * str, page.2 ≠ [])
                                    (imap (λ j raw, (i + j, normalize raw)) raws))), w1)
        ∧ length raws = length images
    | None =>
        ∃ msg w1,
          pdf_loop i images acc w
          = (inl (HTTPException 500 (lit "Failed to extract text from image: " ++ msg)), w1)
    end.
Proof.
  induction images as [|image images IH]; intros i acc w; simpl.
  - by rewrite app_nil_r.
  - unfold mbind, R_bind. pose proof (helper_image_runs image w) as Himg.
    destruct (image_to_string_config B image custom_config w) as [[msg|raw] w'];
      rewrite Himg; [eauto|].
    destruct (normalize raw) as [|c t] eqn:Ht.
    + specialize (IH (S i) acc w').
      destruct (page_answers images w') as [[raws w1]|]; [|done].
      destruct IH as [-> Hlen]. split; [|simpl; lia].
      rewrite imap_cons, filter_cons_False by (simpl; rewrite Ht; tauto).
      by rewrite (imap_ext ((λ j raw0, (i + j, normalize raw0)) ∘ S)
                           (λ j raw0, (S i + j, normalize raw0)))
        by (intros j x _; simpl; f_equal; lia).
    + specialize (IH (S i) (acc ++ [block (i, c :: t)]) w').
      destruct (page_answers images w') as [[raws w1]|]; [|exact IH].
      destruct IH as [IH Hlen]. split; [|simpl; lia].
      etrans; [exact IH|].
      rewrite imap_cons, filter_cons_True by (simpl; by rewrite Ht).
      rewrite (imap_ext ((λ j raw0, (i + j, normalize raw0)) ∘ S)
                           (λ j raw0, (S i + j, normalize raw0)))
        by (intros j x _; simpl; f_equal; lia).
      rewrite <- app_assoc. simpl. by rewrite Nat.add_0_r, Ht.
Qed.

Lemma numbered_sorted (f : str → str) (P : nat * str → Prop)
    `{!∀ page, Decision (P page)} (raws : list str) :
  ∀ i : nat,
    Forall (λ page : nat * str, i ≤ page.1) (filter P (imap (λ j raw, (i + j, f raw)) raws))
    ∧ StronglySorted lt (fst <$> filter P (imap (λ j raw, (i + j, f raw)) raws)).
Proof.
  induction raws as [|raw raws IH]; intros i.
  - split; constructor.
  - rewrite imap_cons.
    destruct (IH (S i)) as [Hle Hsorted].
    rewrite (imap_ext ((λ j raw0, (i + j, f raw0)) ∘ S) (λ j raw0, (S i + j, f raw0)))
      by (intros j x _; simpl; f_equal; lia).
    assert (Forall (λ page : nat * str, i < page.1)
              (filter P (imap (λ j raw0, (S i + j, f raw0)) raws))) as Hlt.
    { eapply Forall_impl; [exact Hle|]. intros page. simpl. lia. }
    rewrite filter_cons. case_decide.
    + split.
      * constructor; [simpl; lia|].
        eapply Forall_impl; [exact Hlt|]. intros page. simpl. lia.
      * simpl. constructor; [done|]. rewrite Nat.add_0_r.
        by apply Forall_fmap.
    + split; [|done]. eapply Forall_impl; [exact Hlt|]. intros page. simpl. lia.
Qed.

End helper_pages.

(** X23. The text the helper on PDFs returns, once the document is
    rasterised and the engine has answered on every page, is made of
    blocks separated by a blank line, one for each page whose cleaned text
    is not empty and none for the other pages: the marker line with the
    number of the page in the document, then the cleaned text of what the
    engine answered on that page; the numbers of the blocks increase.  When
    the engine raises on a page, the helper raises the status 500 with a
    detail that starts with [Failed to process PDF: ]. *)
Theorem helper_pdf_result (B : Helpers.Backend) (pdf_bytes : bytes)
    (w w0 : World (Helpers.base B)) (images : list (PILImage (Helpers.base B))) :
  Helpers.convert_from_bytes_fmt B pdf_bytes 300 (lit "PNG") 4 w = (inr images, w0) →
  match Helpers.page_answers images w0 with
  | Some (raws, w1) =>
      let pages := Helpers.pages_with_text raws in
      length raws = length images
      ∧ Helpers.extract_text_from_pdf pdf_bytes w
        = (inr (join [LF; LF] (Helpers.block <$> pages)), w1)
      ∧ Forall (λ page, page.1 < length images
                        ∧ page.2 ≠ [] ∧ is_normalized page.2 = true) pages
      ∧ StronglySorted lt (fst <$> pages)
  | None =>
      ∃ msg w1,
        Helpers.extract_text_from_pdf pdf_bytes w
        = (inl (HTTPException 500 (lit "Failed to process PDF: " ++ msg)), w1)
  end.
Proof.
  intros Hras. unfold Helpers.extract_text_from_pdf.
  unfold mbind, mret, Helpers.R_bind, Helpers.R_ret, Helpers.catch, Helpers.throw,
    Helpers.lib.
  rewrite Hras. pose proof (pdf_loop_answers images 0 [] w0) as H.
  destruct (Helpers.page_answers images w0) as [[raws w1]|].
  - destruct H as [-> Hlen]. cbv zeta. split; [done|]. split; [done|].
    unfold Helpers.pages_with_text. split.
    + apply Forall_forall. intros [j body] Hin.
      apply list_elem_of_filter in Hin as [Hne Hin].
      apply elem_of_lookup_imap in Hin as (k & raw & [= -> ->] & Hk).
      apply lookup_lt_Some in Hk. simpl in *.
      split; [lia|]. split; [done|apply normalize_is_normalized].
    + apply (numbered_sorted normalize (λ page, page.2 ≠ []) raws 0).
  - destruct H as (msg & w1 & ->). eauto.
Qed.

Lemma helper_pdf_result_witness :
  let w := Sim2.world [inr (lit " Visa  No 7 "); inr [LF]; inr (lit "Page three")] in
  Helpers.extract_text_from_pdf (B := Sim2.backend) (Sim.data "abc") w
  = (inr (lit "--- Page 1 ---" ++ [LF] ++ lit "Visa No 7" ++ [LF; LF]
          ++ lit "--- Page 3 ---" ++ [LF] ++ lit "Page three"), Sim2.world []).
Proof.
  intros w.
  pose proof (helper_pdf_result Sim2.backend (Sim.data "abc") w w
                (imap (λ n _, Sim.Page n (Sim.data "abc")) (Sim.data "abc")) eq_refl) as H.
  destruct (Helpers.page_answers (B := Sim2.backend) _ w) as [[raws w1]|] eqn:Hans;
    vm_compute in Hans; [injection Hans as <- <-|discriminate Hans].
  destruct H as (_ & Hrun & _). rewrite Hrun. vm_compute. reflexivity.
Defined.

(** X24. The helper on PDFs does not isolate pages: when the engine raises
    on a page, the pages before it having been read, the helper raises for
    the whole document, with the error of the page wrapped twice. *)
Theorem helper_pdf_page_failure (B : Helpers.Backend) (pdf_bytes : bytes)
    (w w0 w1 w2 : World (Helpers.base B))
    (before after : list (PILImage (Helpers.base B))) (image : PILImage (Helpers.base B))
    (texts : list str) (msg : str) :
  Helpers.convert_from_bytes_fmt B pdf_bytes 300 (lit "PNG") 4 w
  = (inr (before ++ image :: after), w0) →
  Helpers.pdf_loop 0 before [] w0 = (inr texts, w1) →
  Helpers.image_to_string_config B image Helpers.custom_config w1 = (inl msg, w2) →
  Helpers.extract_text_from_pdf pdf_bytes w
  = (inl (HTTPException 500
            (lit "Failed to process PDF: "
             ++ str_HTTPException (Helpers.base B) 500
                  (lit "Failed to extract text from image: " ++ msg))), w2).
Proof.
  intros Hras Hbefore Himage. unfold Helpers.extract_text_from_pdf.
  unfold mbind, mret, Helpers.R_bind, Helpers.R_ret, Helpers.catch, Helpers.throw,
    Helpers.lib.
  rewrite Hras, pdf_loop_app, Hbefore. simpl.
  unfold mbind, Helpers.R_bind.
  pose proof (helper_image_runs image w1) as H. rewrite Himage in H. by rewrite H.
Qed.

Lemma helper_pdf_page_failure_witness :
  let w := Sim2.world [inr (lit "Visa"); inl (lit "engine timeout"); inr (lit "Page three")] in
  (Helpers.extract_text_from_pdf (B := Sim2.backend) (Sim.data "abc") w).1
  = inl (HTTPException 500
           (lit "Failed to process PDF: 500: Failed to extract text from image: engine timeout")).
Proof.
  intros w.
  rewrite (helper_pdf_page_failure Sim2.backend (Sim.data "abc") w w
             (Sim2.world [inl (lit "engine timeout"); inr (lit "Page three")])
             (Sim2.world [inr (lit "Page three")])
             [Sim.Page 0 (Sim.data "abc")] [Sim.Page 2 (Sim.data "abc")]
             (Sim.Page 1 (Sim.data "abc"))
             [lit "--- Page 1 ---" ++ [LF] ++ lit "Visa"] (lit "engine timeout")).
  - vm_compute. reflexivity.
  - reflexivity.
  - vm_compute. reflexivity.
  - reflexivity.
Defined.

(** ** config.py *)

Section config.
Import Config.

Lemma split_on_length (sep : char) (s : str) :
  ∀ w, length (Pathlib.split_on sep w s) = 1 + length (filter (λ c, c = sep) s).
Proof.
  induction s as [|c s IH]; intros w; [done|].
  cbn [Pathlib.split_on]. rewrite (filter_cons (λ c0 : char, c0 = sep) c s).
  destruct (N.eqb_spec c sep) as [->|Hne].
  - rewrite decide_True by done. cbn [length]. by rewrite IH.
  - rewrite decide_False by done. apply IH.
Qed.

End config.

(** X25. The origins allowed are the four default origins, in their
    order, followed by the origins of the variable [CORS_ORIGINS] when it is
    set and not empty: one origin more than the value has commas, each
    without whitespace at its ends. *)
Theorem cors_origins_extend_defaults (getenv : str → option str) :
  ∃ custom,
    Config.CORS_ORIGINS getenv = Config.default_origins ++ custom
    ∧ Forall (λ origin, trimmed origin = true) custom
    ∧ length custom
      = match getenv (lit "CORS_ORIGINS") with
        | Some [] | None => 0
        | Some value => 1 + length (filter (λ d, d = Config.COMMA) value)
        end.
Proof.
  unfold Config.CORS_ORIGINS.
  destruct (getenv (lit "CORS_ORIGINS")) as [[|c value]|].
  - exists []. by rewrite app_nil_r.
  - eexists. split; [reflexivity|]. split.
    + apply Forall_fmap, Forall_forall. intros origin _. apply strip_is_trimmed.
    + rewrite length_fmap. apply split_on_length.
  - exists []. by rewrite app_nil_r.
Qed.

(** X26. The size limit in megabytes that [get_config_summary] reports
    is the number of megabytes the limit was computed from. *)
Theorem max_file_size_round_trip (megabytes : Z) :
  Config.max_file_size_mb (Config.MAX_FILE_SIZE megabytes) = megabytes.
Proof.
  unfold Config.max_file_size_mb, Config.MAX_FILE_SIZE.
  rewrite <- Z.mul_assoc. by apply Z.div_mul.
Qed.

Example cors_origins_ex :
  Config.CORS_ORIGINS (λ k, if bool_decide (k = lit "CORS_ORIGINS")
                            then Some (lit " https://a.ae , https://b.ae") else None)
  = Config.default_origins ++ [lit "https://a.ae"; lit "https://b.ae"].
Proof. vm_compute. reflexivity. Qed.

(** ** More on the two attempts and on the batch *)

Section more.
Context {E : Externals}.
Import Ocr Spec Calls Main Answers Batch.

Lemma first_attempt_opens_first (b : bytes) (lang : str) (s : State E) :
  ∃ r w evs,
    image_first_attempt b lang s = (r, mkState w (trace s ++ EvOpen b :: evs)).
Proof.
  unfold image_first_attempt. py_unfold. py_call.
  { by eexists _, _, []. }
  match goal with |- context [preprocess_image_for_ocr ?i ?st] =>
    destruct (preprocess_image_ops i st) as (proc & w1 & evs & -> & _) end.
  simpl. py_call; rewrite <- !app_assoc; by eexists _, _, _.
Qed.

Lemma extract_image_opens_first (b : bytes) (lang : str) (s : State E) :
  ∃ r w evs,
    extract_text_from_image_bytes b lang s = (r, mkState w (trace s ++ EvOpen b :: evs)).
Proof.
  destruct (first_attempt_opens_first b lang s) as (r1 & w1 & evs1 & H1).
  destruct r1 as [e|t].
  - rewrite (extract_image_fallback _ _ _ _ _ H1).
    destruct (fallback_calls b lang (mkState w1 (trace s ++ EvOpen b :: evs1)))
      as (r2 & w2 & evs2 & -> & _). simpl.
    rewrite <- app_assoc. simpl. destruct r2; by eexists _, _, _.
  - rewrite (extract_image_first_ok _ _ _ _ _ H1). by eexists _, _, _.
Qed.

Lemma process_file_ok (file : UploadFile) (language kind : str) (s : State E) :
  validate_file_type (E := E) (filename file) = inr kind →
  process_file file language s
  = if bool_decide (kind = lit "image") then
      match extract_text_from_image_bytes (content file) language (after_read file s) with
      | (inr t, s2) => (inr (kind, t), s2)
      | (inl e, s2) => (inl e, s2)
      end
    else
      match extract_text_from_pdf_bytes (content file) language 300 (after_read file s) with
      | (inr texts, s2) => (inr (kind, join_pages texts), s2)
      | (inl e, s2) => (inl e, s2)
      end.
Proof.
  intros Hv. unfold process_file, read, after_read. py_unfold. simpl. rewrite Hv. simpl.
  pose proof (validate_file_type_values E (filename file)) as Hk. rewrite Hv in Hk.
  destruct Hk as [-> | ->].
  - rewrite !bool_decide_eq_true_2 by done.
    by destruct (extract_text_from_image_bytes _ _ _) as [[e|t] s2].
  - rewrite !bool_decide_eq_false_2
      by (intros H; symmetry in H; by apply image_is_not_pdf).
    rewrite bool_decide_eq_true_2 by done.
    by destruct (extract_text_from_pdf_bytes _ _ _ _) as [[e|texts] s2].
Qed.

End more.

(** X27. The batch and the single extraction agree on a file that is not
    empty and has a supported name: the file succeeds in the batch exactly
    when the single extraction at 300 dpi answers, with the same kind, the
    same text (the empty text for the answer without text) and the same
    calls. *)
Theorem batch_agrees_with_single (E : Externals) (file : Main.UploadFile)
    (language kind : str) (s : State E) :
  Main.validate_file_type (E := E) (Main.filename file) = inr kind →
  Main.content file ≠ [] →
  match Main.extract_text file language 300 s with
  | (inr resp, s') =>
      Main.process_file file language s = (inr (kind, Main.response_text resp), s')
  | (inl _, s') => ∃ e, Main.process_file file language s = (inl e, s')
  end.
Proof.
  intros Hv Hc. rewrite (process_file_ok _ _ _ _ Hv).
  pose proof (validate_file_type_values E (Main.filename file)) as Hk. rewrite Hv in Hk.
  destruct Hk as [-> | ->].
  - rewrite bool_decide_eq_true_2 by done. rewrite (extract_text_image _ _ _ _ Hv Hc).
    destruct (Ocr.extract_text_from_image_bytes _ _ _) as [[e|[|c t]] s2]; eauto.
  - rewrite bool_decide_eq_false_2
      by (intros H; symmetry in H; by apply image_is_not_pdf).
    rewrite (extract_text_pdf _ _ _ _ Hv Hc).
    destruct (Ocr.extract_text_from_pdf_bytes _ _ _ _) as [[e|[|t texts]] s2]; eauto.
Qed.

Lemma batch_agrees_with_single_witness :
  let file := Sim.upload "visa.png" "scan" in
  let s := Sim.start [inr (lit " Visa  No 7 ")] false in
  ∃ s', Main.extract_text (E := Sim.env) file (lit "eng") 300 s
        = (inr (Main.TextResponse (lit "Visa No 7") (lit "image") (lit "visa.png") 9
                  (lit "eng")), s')
        ∧ Main.process_file (E := Sim.env) file (lit "eng") s
          = (inr (lit "image", lit "Visa No 7"), s').
Proof.
  intros file s.
  pose proof (batch_agrees_with_single Sim.env file (lit "eng") (lit "image") s) as H.
  destruct (Main.extract_text (E := Sim.env) file (lit "eng") 300 s) as [[e|resp] s'] eqn:Hrun.
  - vm_compute in Hrun. discriminate Hrun.
  - exists s'. vm_compute in Hrun. injection Hrun as <- <-. split; [reflexivity|].
    vm_compute. reflexivity.
Defined.

(** X28. The batch does not test whether a file is empty: a file of no
    bytes with a supported name is read and then handed to the decoder, or
    to the rasteriser at 300 dpi, as it is. *)
Theorem batch_hands_on_empty_files (E : Externals) (file : Main.UploadFile)
    (language kind : str) (s : State E) :
  Main.validate_file_type (E := E) (Main.filename file) = inr kind →
  Main.content file = [] →
  ∃ r w evs,
    Main.extract_text_batch [file] language s
    = (inr r,
       mkState w (trace s ++ EvRead (Main.filename file)
                          :: (if bool_decide (kind = lit "image")
                              then EvOpen [] else EvRasterize [] 300)
                          :: evs)).
Proof.
  intros Hv Hc. unfold Main.extract_text_batch. py_unfold. simpl.
  unfold mbind, M_bind, bind. rewrite batch_file_runs. unfold Main.batch_item.
  rewrite (process_file_ok _ _ _ _ Hv), Hc.
  pose proof (validate_file_type_values E (Main.filename file)) as Hk. rewrite Hv in Hk.
  destruct Hk as [-> | ->].
  - rewrite !bool_decide_eq_true_2 by done.
    destruct (extract_image_opens_first [] language (Answers.after_read file s))
      as (r & w & evs & ->).
    unfold Answers.after_read. simpl. rewrite <- app_assoc. simpl.
    destruct r; by eexists _, _, _.
  - rewrite !bool_decide_eq_false_2
      by (intros H; symmetry in H; by apply image_is_not_pdf).
    pose proof (extract_pdf_runs [] language 300 (Answers.after_read file s)) as Hpdf.
    unfold Answers.after_read in *. simpl in Hpdf.
    destruct (convert_from_bytes E [] 300 (world s)) as [[msg|images] w0].
    + rewrite Hpdf. simpl. rewrite <- app_assoc. simpl. by eexists _, _, [].
    + destruct Hpdf as (texts & w & evs & -> & _). simpl. rewrite <- app_assoc. simpl.
      by eexists _, _, _.
Qed.

Lemma batch_hands_on_empty_files_witness :
  let s := Sim.start [] false in
  ∃ r w evs,
    Main.extract_text_batch (E := Sim.env) [Sim.upload "visa.png" EmptyString] (lit "eng") s
    = (inr r, mkState w (trace s ++ EvRead (lit "visa.png") :: EvOpen [] :: evs)).
Proof.
  intros s.
  destruct (batch_hands_on_empty_files Sim.env (Sim.upload "visa.png" EmptyString)
              (lit "eng") (lit "image") s) as (r & w & evs & Hrun).
  - vm_compute. reflexivity.
  - reflexivity.
  - by exists r, w, evs.
Defined.

(** X29. For an image that is not RGB the preprocessor first converts it
    to RGB.  When that conversion raises, the image comes back as it was
    given; when it returns, what comes back is the converted image or the
    blurred one. *)
Theorem preprocess_non_rgb (E : Externals) (img : PILImage E) (s : State E) :
  Image_mode E img ≠ Ocr.RGB →
  match Image_convert E img Ocr.RGB (world s) with
  | (inl _, w) =>
      Ocr.preprocess_image_for_ocr img s
      = (inr img, mkState w (trace s ++ [EvConvert img Ocr.RGB]))
  | (inr rgb, _) =>
      ∃ proc s',
        Ocr.preprocess_image_for_ocr img s = (inr proc, s')
        ∧ (proc = rgb
           ∨ ∃ enhanced w w',
               Image_filter E enhanced (GaussianBlur (1 # 2)) w = (inr proc, w'))
  end.
Proof.
  intros Hm. unfold Ocr.preprocess_image_for_ocr. py_unfold.
  rewrite bool_decide_eq_true_2 by done.
  destruct (Image_convert E img Ocr.RGB (world s)) as [[msg|rgb] w1]; simpl; [done|].
  repeat py_call; eauto 10.
Qed.

Lemma preprocess_non_rgb_witness :
  let original := Sim.Opened (Sim.data "L-scan") in
  let s := Sim.start [] false in
  ∃ proc s',
    Ocr.preprocess_image_for_ocr (E := Sim.env) original s = (inr proc, s')
    ∧ (proc = Sim.Converted original (lit "RGB")
       ∨ ∃ enhanced w w',
           Sim.blur enhanced (GaussianBlur (1 # 2)) w = (inr proc, w')).
Proof.
  intros original s.
  apply (preprocess_non_rgb Sim.env original s).
  intros H. vm_compute in H. discriminate H.
Defined.

(** X30. When the first attempt on an image returns, its text is the
    text returned, trimmed and single-spaced, and there is no fallback. *)
Theorem first_attempt_text_is_clean (E : Externals) (b : bytes) (lang : str)
    (s s' : State E) (t : str) :
  Ocr.image_first_attempt b lang s = (inr t, s') →
  Ocr.extract_text_from_image_bytes b lang s = (inr t, s')
  ∧ is_normalized t = true.
Proof.
  intros H1. split; [by apply extract_image_first_ok|].
  destruct (first_attempt_normalized _ _ _ _ _ H1) as [raw ->].
  apply normalize_is_normalized.
Qed.

Lemma first_attempt_text_is_clean_witness :
  let s := Sim.start [inr (lit "  Visa   No 7 ")] false in
  ∃ s', Ocr.extract_text_from_image_bytes (E := Sim.env) (Sim.data "scan") (lit "eng") s
        = (inr (lit "Visa No 7"), s')
        ∧ is_normalized (lit "Visa No 7") = true.
Proof.
  intros s. eexists.
  apply (first_attempt_text_is_clean Sim.env (Sim.data "scan") (lit "eng") s).
  vm_compute. reflexivity.
Defined.
